(** * Facility booking controller: model and verified properties

    A shallow embedding of the booking workflow of the resident facility
    management backend: [controllers/facilityController.ts], the request
    schemas of [middleware/validation.ts], [requireAdmin] of
    [middleware/auth.ts], the routes of [routes/facilities.ts] and the
    [facilities] / [facility_bookings] tables of the migration; and of the
    reading, creating and status-setting handlers of
    [controllers/complaintController.ts] with their routes.

    The relational store is modelled as finite maps from primary key to
    row; every handler is a function from the request and the store to
    the HTTP response and the store afterwards. *)

From Stdlib Require Import ZArith Bool Ascii String List Lia.
From stdpp Require Import base option gmap strings list sorting.

Local Open Scope Z_scope.

(** ** Data shapes ([types/index.ts] and the migration) *)

(** Primary keys are uuids, held by the program as strings.  Values of
    this type are taken to be well-formed uuids. *)
Abbreviation uuid := string (only parsing).
(** A [date] column: the calendar day as a day number (days since the
    epoch). *)
Abbreviation date := Z (only parsing).
(** A [time] column: seconds since midnight. *)
Abbreviation time := Z (only parsing).
(** A [timestamptz] column or a JavaScript [Date]: milliseconds since the
    epoch.  The server's local zone is taken to be UTC. *)
Abbreviation timestamptz := Z (only parsing).

Inductive user_role := admin | resident.

Inductive booking_status := pending | approved | rejected | cancelled.

#[global] Instance user_role_eq_dec : EqDecision user_role.
Proof. solve_decision. Defined.

#[global] Instance booking_status_eq_dec : EqDecision booking_status.
Proof. solve_decision. Defined.

(** [req.user] as set by [authenticateToken]: only the identity and the
    role are read by the booking controller. *)
Record User := {
  u_id : uuid;
  role : user_role
}.

(** A row of [facilities] as the controller reads it back: the two
    operating-hours columns arrive as strings ([types/index.ts]).  Columns
    the booking controller never reads are left out. *)
Record Facility := {
  requires_approval : bool;
  operating_hours_start : string;
  operating_hours_end : string;
  is_active : bool
}.

(** A row of [facility_bookings], without its primary key (the key of the
    table). *)
Record FacilityBooking := {
  facility_id : uuid;
  user_id : uuid;
  booking_date : date;
  start_time : time;
  end_time : time;
  status : booking_status;
  purpose : option string;
  notes : option string;
  admin_notes : option string;
  approved_by : option uuid;
  approved_at : option timestamptz;
  created_at : timestamptz;
  updated_at : timestamptz
}.

(** The two tables the booking workflow touches. *)
Record Database := {
  facilities : gmap uuid Facility;
  facility_bookings : gmap uuid FacilityBooking
}.

Definition with_bookings (db : Database) (tbl : gmap uuid FacilityBooking)
  : Database :=
  {| facilities := facilities db; facility_bookings := tbl |}.

(** What a request reads from outside the program: the server clock
    ([new Date()]), the store's clock ([now()] in column defaults and in
    the [updated_at] trigger) and the key [gen_random_uuid()] hands to an
    inserted row. *)
Record Env := {
  js_now : timestamptz;
  db_now : timestamptz;
  new_uuid : uuid
}.

(** ** Request shapes *)

(** [booking_date] arrives as an ISO 8601 text, a date or a date and
    time, and the validation leaves it as it came.  [rq_booking_date] is
    the calendar day the text writes, which the store reads into its
    [date] column and compares it with; [rq_booking_instant] is the
    instant the text denotes, which the schema compares with now (for a
    date alone, midnight UTC of that day). *)
Record CreateBookingRequest := {
  rq_facility_id : uuid;
  rq_booking_date : date;
  rq_booking_instant : timestamptz;
  rq_start_time : string;
  rq_end_time : string;
  rq_purpose : option string;
  rq_notes : option string
}.

Record ApproveBookingRequest := {
  rq_status : booking_status;
  rq_admin_notes : option string
}.

(** [req.query] of the listing route.  [q_page] and [q_limit] hold what
    [parseInt] returns ([None] for [NaN]). *)
Record Query := {
  q_page : option Z;
  q_limit : option Z;
  q_status : option string;
  q_date : option date
}.

(** An authenticated request: [req.user], [req.params.id], [req.query]
    and [req.body]. *)
Record AuthRequest (B : Type) := {
  user : User;
  params_id : uuid;
  query : Query;
  body : B
}.
Arguments user {B} _.
Arguments params_id {B} _.
Arguments query {B} _.
Arguments body {B} _.

(** ** Response shapes *)

(** The response envelope [ApiResponse<T>]. *)
Record ApiResponse (T : Type) := {
  success : bool;
  res_data : option T;
  message : option string;
  res_error : option string
}.
Arguments success {T} _.
Arguments res_data {T} _.
Arguments message {T} _.
Arguments res_error {T} _.

(** What a handler sends: [res.status(code).json(payload)]. *)
Record Response (T : Type) := {
  statusCode : Z;
  payload : ApiResponse T
}.
Arguments statusCode {T} _.
Arguments payload {T} _.

(** [res.status(code).json({ success: false, error })]. *)
Definition json_error {T} (code : Z) (err : string) : Response T :=
  {| statusCode := code;
     payload := {| success := false; res_data := None; message := None;
                   res_error := Some err |} |}.

(** [res.status(code).json({ success: true, data, message })]. *)
Definition json_data {T} (code : Z) (d : T) (msg : option string)
  : Response T :=
  {| statusCode := code;
     payload := {| success := true; res_data := Some d; message := msg;
                   res_error := None |} |}.

Record Pagination := {
  page : Z;
  limit : Z;
  total : Z;
  totalPages : Z
}.

Record PaginatedResponse (T : Type) := {
  items : list T;
  pagination : Pagination
}.
Arguments items {T} _.
Arguments pagination {T} _.

(** A booking as a handler returns it: the key and the row (the joined
    facility, user and approver details are not modelled). *)
Abbreviation booking := (uuid * FacilityBooking)%type (only parsing).

(** ** The store client

    The result [{ data, error }] of awaiting a query. *)
Record PostgrestResponse (A : Type) := {
  data : option A;
  error : bool
}.
Arguments data {A} _.
Arguments error {A} _.

Definition fulfilled {A} (a : A) : PostgrestResponse A :=
  {| data := Some a; error := false |}.

Definition failed {A} : PostgrestResponse A :=
  {| data := None; error := true |}.

(** [.single()]: the result must be exactly one row, otherwise the client
    reports an error and no data. *)
Definition single {A} (rows : list A) : PostgrestResponse A :=
  match rows with
  | [r] => fulfilled r
  | _ => failed
  end.

(** [supabase.from(table)]: the rows of a table with their keys. *)
Definition from {A} (tbl : gmap uuid A) : list (uuid * A) := map_to_list tbl.

(** [.range(from, to)] with [{ count: 'exact' }]: rows [from..to] of the
    result, and the number of rows before the range is cut.  A range that
    starts below zero or ends before it starts is refused by the store. *)
Definition range {A} (lo hi : Z) (rows : list A)
  : PostgrestResponse (list A * Z) :=
  if (0 <=? lo) && (lo <=? hi)
  then fulfilled (take (Z.to_nat (hi - lo + 1)) (drop (Z.to_nat lo) rows),
                  Z.of_nat (length rows))
  else failed.

(** [BEFORE UPDATE] trigger [update_updated_at_column]. *)
Definition update_updated_at_column (env : Env) (b : FacilityBooking)
  : FacilityBooking :=
  {| facility_id := facility_id b; user_id := user_id b;
     booking_date := booking_date b; start_time := start_time b;
     end_time := end_time b; status := status b; purpose := purpose b;
     notes := notes b; admin_notes := admin_notes b;
     approved_by := approved_by b; approved_at := approved_at b;
     created_at := created_at b; updated_at := db_now env |}.

(** [.update(set)] on the rows of [facility_bookings] matching [P],
    followed by [.select()]: the table afterwards and the updated rows. *)
Definition update (env : Env) (set : FacilityBooking → FacilityBooking)
    (P : uuid * FacilityBooking → Prop) `{!∀ r, Decision (P r)}
    (tbl : gmap uuid FacilityBooking)
  : gmap uuid FacilityBooking * list (uuid * FacilityBooking) :=
  let touch b := update_updated_at_column env (set b) in
  (map_imap (λ k b, Some (if decide (P (k, b)) then touch b else b)) tbl,
   (λ r, (r.1, touch r.2)) <$> filter P (from tbl)).

(** [.insert(row)] followed by [.select()]: the primary key refuses a key
    that is already in the table. *)
Definition insert (k : uuid) (b : FacilityBooking)
    (tbl : gmap uuid FacilityBooking)
  : option (gmap uuid FacilityBooking * list (uuid * FacilityBooking)) :=
  match tbl !! k with
  | Some _ => None
  | None => Some (<[k := b]> tbl, [(k, b)])
  end.

(** ** Times of day as text *)

Definition char_between (lo hi c : ascii) : bool :=
  (N_of_ascii lo <=? N_of_ascii c)%N && (N_of_ascii c <=? N_of_ascii hi)%N.

Definition digit (c : ascii) : Z := Z.of_N (N_of_ascii c) - 48.

(** The pattern [/^([0-1]?[0-9]|2[0-3]):[0-5][0-9]$/] of
    [createBookingSchema]. *)
Definition time_pattern (s : string) : bool :=
  match list_ascii_of_string s with
  | [h; ":"; m1; m2]%char =>
      char_between "0" "9" h
      && char_between "0" "5" m1 && char_between "0" "9" m2
  | [h1; h2; ":"; m1; m2]%char =>
      ((char_between "0" "1" h1 && char_between "0" "9" h2)
       || (Ascii.eqb h1 "2" && char_between "0" "3" h2))
      && char_between "0" "5" m1 && char_between "0" "9" m2
  | _ => false
  end.

(** The store's reading of a time literal that matches [time_pattern],
    the only literals the route lets through to it.  Other literals the
    store may read never reach it from this route and are not covered:
    [None] stands for them as well. *)
Definition time_of_string (s : string) : option time :=
  if time_pattern s then
    match list_ascii_of_string s with
    | [h; _; m1; m2] =>
        Some (digit h * 3600 + (digit m1 * 10 + digit m2) * 60)
    | [h1; h2; _; m1; m2] =>
        Some ((digit h1 * 10 + digit h2) * 3600
              + (digit m1 * 10 + digit m2) * 60)
    | _ => None
    end
  else None.

(** JavaScript's [<] and [>] on two strings: code-unit order. *)
Definition js_lt (a b : string) : bool := String.ltb a b.
Definition js_gt (a b : string) : bool := String.ltb b a.

Definition status_name (s : booking_status) : string :=
  match s with
  | pending => "pending"
  | approved => "approved"
  | rejected => "rejected"
  | cancelled => "cancelled"
  end.

(** The store's reading of a [booking_status] literal. *)
Definition status_of_string (s : string) : option booking_status :=
  if String.eqb s "pending" then Some pending
  else if String.eqb s "approved" then Some approved
  else if String.eqb s "rejected" then Some rejected
  else if String.eqb s "cancelled" then Some cancelled
  else None.

(** [new Date(`${booking_date}T${start_time}`)]. *)
Definition bookingDateTime (d : date) (t : time) : timestamptz :=
  (d * 86400 + t) * 1000.

(** ** Middleware ([middleware/validation.ts], [middleware/auth.ts]) *)

(** The UTF-16 code units a byte of a UTF-8 text starts: one for a byte
    below 0x80 and for the lead byte of a two- or three-byte sequence,
    two (a surrogate pair) for the lead byte of a four-byte sequence,
    none for a continuation byte. *)
Definition utf16_units (c : ascii) : nat :=
  let n := N_of_ascii c in
  if (n <? 128)%N then 1%nat
  else if (n <? 192)%N then 0%nat
  else if (n <? 240)%N then 1%nat
  else 2%nat.

(** [s.length] in JavaScript, which Joi's [min] and [max] compare: the
    number of UTF-16 code units of the text whose UTF-8 bytes [s] holds. *)
Fixpoint js_length (s : string) : nat :=
  match s with
  | EmptyString => 0%nat
  | String c s' => (utf16_units c + js_length s')%nat
  end.

(** [Joi.string().max(n).optional()]: absent, or a non-empty string of at
    most [n] characters. *)
Definition optional_string_max (n : nat) (o : option string) : bool :=
  match o with
  | None => true
  | Some s => (0 <? js_length s)%nat && (js_length s <=? n)%nat
  end.

(** [createBookingSchema]: the instant [booking_date] denotes is not
    before now, both times match the pattern, the texts are within their
    lengths.  No rule relates [start_time] to [end_time]. *)
Definition createBookingSchema (env : Env) (b : CreateBookingRequest)
  : bool :=
  (js_now env <=? rq_booking_instant b)
  && time_pattern (rq_start_time b)
  && time_pattern (rq_end_time b)
  && optional_string_max 500 (rq_purpose b)
  && optional_string_max 1000 (rq_notes b).

(** [approveBookingSchema]: [status] is 'approved' or 'rejected'. *)
Definition approveBookingSchema (b : ApproveBookingRequest) : bool :=
  bool_decide (rq_status b ∈ [approved; rejected])
  && optional_string_max 1000 (rq_admin_notes b).

(** [validateRequest(schema)]: answer 400 or pass the request on. *)
Definition validateRequest {B T} (schema : B → bool)
    (next : AuthRequest B → Database → Response T * Database)
    (req : AuthRequest B) (db : Database) : Response T * Database :=
  if schema (body req) then next req db
  else (json_error 400 "Validation error", db).

(** [requireAdmin]: answer 403 or pass the request on. *)
Definition requireAdmin {B T}
    (next : AuthRequest B → Database → Response T * Database)
    (req : AuthRequest B) (db : Database) : Response T * Database :=
  if decide (role (user req) ≠ admin)
  then (json_error 403 "Admin access required", db)
  else next req db.

(** ** The booking controller ([controllers/facilityController.ts]) *)

(** The [.or(...)] clause of the conflict query, for a stored interval
    from [a] to [b] and requested times [s] and [e]:
    [and(start_time.lte.s,end_time.gt.s)],
    [and(start_time.lt.e,end_time.gte.e)],
    [and(start_time.gte.s,end_time.lte.e)]. *)
Definition conflict_clause (s e a b : time) : Prop :=
  (a <= s ∧ b > s) ∨ (a < e ∧ b >= e) ∨ (a >= s ∧ b <= e).

#[global] Instance conflict_clause_dec s e a b :
  Decision (conflict_clause s e a b).
Proof. unfold conflict_clause. apply _. Defined.

(** The whole filter of the conflict query on a row. *)
Definition conflicting (fid : uuid) (d : date) (s e : time)
    (r : uuid * FacilityBooking) : Prop :=
  facility_id r.2 = fid ∧ booking_date r.2 = d
  ∧ status r.2 ∈ [approved; pending]
  ∧ conflict_clause s e (start_time r.2) (end_time r.2).

#[global] Instance conflicting_dec fid d s e r :
  Decision (conflicting fid d s e r).
Proof. unfold conflicting. apply _. Defined.

(** The conflict query: the keys of the conflicting rows.  The store
    reads the two interpolated time literals. *)
Definition conflictingBookings (fid : uuid) (d : date) (stime etime : string)
    (tbl : gmap uuid FacilityBooking) : PostgrestResponse (list uuid) :=
  match time_of_string stime, time_of_string etime with
  | Some s, Some e =>
      fulfilled (fst <$> filter (conflicting fid d s e) (from tbl))
  | _, _ => failed
  end.

(** The row [createBooking] inserts; the columns it does not give take
    their defaults. *)
Definition new_booking (env : Env) (u : User) (b : CreateBookingRequest)
    (s e : time) (initialStatus : booking_status) : FacilityBooking :=
  {| facility_id := rq_facility_id b;
     user_id := u_id u;
     booking_date := rq_booking_date b;
     start_time := s;
     end_time := e;
     status := initialStatus;
     purpose := rq_purpose b;
     notes := rq_notes b;
     admin_notes := None;
     approved_by :=
       if decide (initialStatus = approved) then Some (u_id u) else None;
     approved_at :=
       if decide (initialStatus = approved) then Some (js_now env) else None;
     created_at := db_now env;
     updated_at := db_now env |}.

Definition insertBooking (env : Env) (u : User) (b : CreateBookingRequest)
    (initialStatus : booking_status) (tbl : gmap uuid FacilityBooking)
  : option (gmap uuid FacilityBooking * list (uuid * FacilityBooking)) :=
  match time_of_string (rq_start_time b), time_of_string (rq_end_time b) with
  | Some s, Some e =>
      insert (new_uuid env) (new_booking env u b s e initialStatus) tbl
  | _, _ => None
  end.

Definition createBooking (env : Env) (req : AuthRequest CreateBookingRequest)
    (db : Database) : Response (uuid * FacilityBooking) * Database :=
  let b := body req in
  (* Check if facility exists and is active *)
  let facilityRes :=
    single (filter (λ r, r.1 = rq_facility_id b ∧ is_active r.2 = true)
                   (from (facilities db))) in
  match (if error facilityRes then None else data facilityRes) with
  | None => (json_error 404 "Facility not found or inactive", db)
  | Some (_, facility) =>
    (* Check if the booking time is within operating hours *)
    if js_lt (rq_start_time b) (operating_hours_start facility)
       || js_gt (rq_end_time b) (operating_hours_end facility)
    then (json_error 400
            ("Facility is only available between "
             +:+ operating_hours_start facility +:+ " and "
             +:+ operating_hours_end facility), db)
    else
      (* Check for conflicting bookings *)
      let conflictRes :=
        conflictingBookings (rq_facility_id b) (rq_booking_date b)
          (rq_start_time b) (rq_end_time b) (facility_bookings db) in
      if error conflictRes
      then (json_error 500 "Failed to check for booking conflicts", db)
      else if match data conflictRes with
              | Some l => (0 <? length l)%nat
              | None => false
              end
      then (json_error 409 "Time slot is already booked or pending approval",
            db)
      else
        (* Set initial status based on facility requirements *)
        let initialStatus :=
          if requires_approval facility then pending else approved in
        match insertBooking env (user req) b initialStatus
                (facility_bookings db) with
        | None => (json_error 500 "Failed to create booking", db)
        | Some (tbl', rows) =>
          let res := single rows in
          if error res then (json_error 500 "Failed to create booking", db)
          else
            ({| statusCode := 201;
                payload :=
                  {| success := true; res_data := data res;
                     message :=
                       Some (if requires_approval facility
                             then "Booking submitted for approval"
                             else "Booking confirmed successfully");
                     res_error := None |} |},
             with_bookings db tbl')
        end
  end.

(** *** [createBooking] between its store calls

    The handler awaits the store three times: the facility lookup, the
    conflict query and the insert, with no transaction around them, so
    writes of other requests can fall in between.  [createBooking_read]
    is the handler up to the insert: it answers, or goes on with the
    facility it found.  The facility lookup reads only [facilities],
    which no booking request writes, so it is taken at the moment of the
    conflict query.  [createBooking_write] is the insert and the answer
    that follows it, on the store as it is by then. *)
Definition createBooking_read (req : AuthRequest CreateBookingRequest)
    (db : Database) : Response (uuid * FacilityBooking) + Facility :=
  let b := body req in
  let facilityRes :=
    single (filter (λ r, r.1 = rq_facility_id b ∧ is_active r.2 = true)
                   (from (facilities db))) in
  match (if error facilityRes then None else data facilityRes) with
  | None => inl (json_error 404 "Facility not found or inactive")
  | Some (_, facility) =>
    if js_lt (rq_start_time b) (operating_hours_start facility)
       || js_gt (rq_end_time b) (operating_hours_end facility)
    then inl (json_error 400
                ("Facility is only available between "
                 +:+ operating_hours_start facility +:+ " and "
                 +:+ operating_hours_end facility))
    else
      let conflictRes :=
        conflictingBookings (rq_facility_id b) (rq_booking_date b)
          (rq_start_time b) (rq_end_time b) (facility_bookings db) in
      if error conflictRes
      then inl (json_error 500 "Failed to check for booking conflicts")
      else if match data conflictRes with
              | Some l => (0 <? length l)%nat
              | None => false
              end
      then inl (json_error 409
                  "Time slot is already booked or pending approval")
      else inr facility
  end.

Definition createBooking_write (env : Env)
    (req : AuthRequest CreateBookingRequest) (facility : Facility)
    (db : Database) : Response (uuid * FacilityBooking) * Database :=
  let initialStatus :=
    if requires_approval facility then pending else approved in
  match insertBooking env (user req) (body req) initialStatus
          (facility_bookings db) with
  | None => (json_error 500 "Failed to create booking", db)
  | Some (tbl', rows) =>
    let res := single rows in
    if error res then (json_error 500 "Failed to create booking", db)
    else
      ({| statusCode := 201;
          payload :=
            {| success := true; res_data := data res;
               message :=
                 Some (if requires_approval facility
                       then "Booking submitted for approval"
                       else "Booking confirmed successfully");
               res_error := None |} |},
       with_bookings db tbl')
  end.

(** A request in flight after its reads: answered already, or waiting to
    insert. *)
Definition finish_create (env : Env) (req : AuthRequest CreateBookingRequest)
    (r : Response (uuid * FacilityBooking) + Facility) (db : Database)
  : Response (uuid * FacilityBooking) * Database :=
  match r with
  | inl res => (res, db)
  | inr facility => createBooking_write env req facility db
  end.

(** The columns [approveBooking] writes: [updateData].  An absent
    [admin_notes] is not sent, so the column keeps its value. *)
Definition updateData (env : Env) (u : User) (b : ApproveBookingRequest)
    (row : FacilityBooking) : FacilityBooking :=
  {| facility_id := facility_id row; user_id := user_id row;
     booking_date := booking_date row; start_time := start_time row;
     end_time := end_time row;
     status := rq_status b;
     purpose := purpose row; notes := notes row;
     admin_notes :=
       match rq_admin_notes b with
       | Some n => Some n
       | None => admin_notes row
       end;
     approved_by := Some (u_id u);
     approved_at := Some (js_now env);
     created_at := created_at row; updated_at := updated_at row |}.

Definition approveBooking (env : Env) (req : AuthRequest ApproveBookingRequest)
    (db : Database) : Response (uuid * FacilityBooking) * Database :=
  let id := params_id req in
  (* Only admins can approve bookings *)
  if decide (role (user req) ≠ admin)
  then (json_error 403 "Admin access required", db)
  else
    let '(tbl', rows) :=
      update env (updateData env (user req) (body req))
        (* Only pending bookings can be approved/rejected *)
        (λ r, r.1 = id ∧ status r.2 = pending)
        (facility_bookings db) in
    let res := single rows in
    if error res
    then (json_error 500 "Failed to update booking status", db)
    else
      match data res with
      | None => (json_error 404 "Booking not found or not pending approval",
                 db)
      | Some bk =>
          ({| statusCode := 200;
              payload :=
                {| success := true; res_data := Some bk;
                   message :=
                     Some ("Booking " +:+ status_name (rq_status (body req))
                           +:+ " successfully");
                   res_error := None |} |},
           with_bookings db tbl')
      end.

(** [{ status: 'cancelled' }]. *)
Definition set_cancelled (row : FacilityBooking) : FacilityBooking :=
  {| facility_id := facility_id row; user_id := user_id row;
     booking_date := booking_date row; start_time := start_time row;
     end_time := end_time row;
     status := cancelled;
     purpose := purpose row; notes := notes row;
     admin_notes := admin_notes row;
     approved_by := approved_by row; approved_at := approved_at row;
     created_at := created_at row; updated_at := updated_at row |}.

Definition cancelBooking (env : Env) (req : AuthRequest unit)
    (db : Database) : Response (uuid * FacilityBooking) * Database :=
  let id := params_id req in
  (* Check if booking exists and user has permission *)
  let fetched :=
    single (filter (λ r, r.1 = id) (from (facility_bookings db))) in
  match (if error fetched then None else data fetched) with
  | None => (json_error 404 "Booking not found", db)
  | Some (_, existingBooking) =>
    (* Check permissions - only booking owner or admin can cancel *)
    if decide (role (user req) ≠ admin
               ∧ user_id existingBooking ≠ u_id (user req))
    then (json_error 403 "Access denied", db)
    (* Check if booking can be cancelled *)
    else if decide (status existingBooking = cancelled)
    then (json_error 400 "Booking is already cancelled", db)
    (* Check if booking is in the past *)
    else if bookingDateTime (booking_date existingBooking)
              (start_time existingBooking) <? js_now env
    then (json_error 400 "Cannot cancel past bookings", db)
    else
      let '(tbl', rows) :=
        update env set_cancelled (λ r, r.1 = id) (facility_bookings db) in
      let res := single rows in
      if error res then (json_error 500 "Failed to cancel booking", db)
      else
        ({| statusCode := 200;
            payload :=
              {| success := true; res_data := data res;
                 message := Some "Booking cancelled successfully";
                 res_error := None |} |},
         with_bookings db tbl')
  end.

(** [parseInt(x) || d]. *)
Definition or_default (x : option Z) (d : Z) : Z :=
  match x with
  | Some n => if n =? 0 then d else n
  | None => d
  end.

(** [Math.ceil(count / limit)]. *)
Definition ceil_div (a b : Z) : Z := - ((- a) / b).

(** [.order('booking_date', asc).order('start_time', asc)]. *)
Definition booking_order (x y : uuid * FacilityBooking) : Prop :=
  booking_date x.2 < booking_date y.2
  ∨ (booking_date x.2 = booking_date y.2 ∧ start_time x.2 <= start_time y.2).

#[global] Instance booking_order_dec x y : Decision (booking_order x y).
Proof. unfold booking_order. apply _. Defined.

(** The rows the listing query selects for an actor, before they are
    ordered and cut to a page. *)
Definition visible_rows (u : User) (facilityId : uuid)
    (st : option booking_status) (d : option date)
    (tbl : gmap uuid FacilityBooking) : list (uuid * FacilityBooking) :=
  let q := filter (λ r, facility_id r.2 = facilityId) (from tbl) in
  (* If not admin, only show approved bookings and user's own bookings *)
  let q :=
    if decide (role u ≠ admin)
    then filter (λ r, status r.2 = approved ∨ user_id r.2 = u_id u) q
    else q in
  (* Apply filters *)
  let q :=
    match st with
    | Some s => filter (λ r, status r.2 = s) q
    | None => q
    end in
  match d with
  | Some dt => filter (λ r, booking_date r.2 = dt) q
  | None => q
  end.

Definition getFacilityBookings (req : AuthRequest unit) (db : Database)
  : Response (PaginatedResponse (uuid * FacilityBooking)) :=
  let facilityId := params_id req in
  let page := or_default (q_page (query req)) 1 in
  let limit := or_default (q_limit (query req)) 10 in
  let offset := (page - 1) * limit in
  (* an empty or absent status is no filter; the store reads the literal *)
  let st :=
    match q_status (query req) with
    | None | Some EmptyString => Some None
    | Some s => Some <$> status_of_string s
    end in
  let res :=
    match st with
    | None => failed
    | Some st =>
        range offset (offset + limit - 1)
          (merge_sort booking_order
             (visible_rows (user req) facilityId st (q_date (query req))
                (facility_bookings db)))
    end in
  if error res then json_error 500 "Failed to fetch facility bookings"
  else
    let bookings := match data res with Some r => r.1 | None => [] end in
    let count := match data res with Some r => r.2 | None => 0 end in
    {| statusCode := 200;
       payload :=
         {| success := true;
            res_data :=
              Some {| items := bookings;
                      pagination :=
                        {| page := page; limit := limit; total := count;
                           totalPages := ceil_div count limit |} |};
            message := None;
            res_error := None |} |}.

(** [.order('booking_date', desc).order('start_time', desc)]. *)
Definition booking_order_desc (x y : uuid * FacilityBooking) : Prop :=
  booking_date y.2 < booking_date x.2
  ∨ (booking_date x.2 = booking_date y.2 ∧ start_time y.2 <= start_time x.2).

#[global] Instance booking_order_desc_dec x y :
  Decision (booking_order_desc x y).
Proof. unfold booking_order_desc. apply _. Defined.

(** The rows the "my bookings" query selects, before they are ordered
    and cut to a page. *)
Definition own_rows (u : User) (st : option booking_status)
    (tbl : gmap uuid FacilityBooking) : list (uuid * FacilityBooking) :=
  let q := filter (λ r, user_id r.2 = u_id u) (from tbl) in
  (* Apply filters *)
  match st with
  | Some s => filter (λ r, status r.2 = s) q
  | None => q
  end.

Definition getUserBookings (req : AuthRequest unit) (db : Database)
  : Response (PaginatedResponse (uuid * FacilityBooking)) :=
  let page := or_default (q_page (query req)) 1 in
  let limit := or_default (q_limit (query req)) 10 in
  let offset := (page - 1) * limit in
  let st :=
    match q_status (query req) with
    | None | Some EmptyString => Some None
    | Some s => Some <$> status_of_string s
    end in
  let res :=
    match st with
    | None => failed
    | Some st =>
        range offset (offset + limit - 1)
          (merge_sort booking_order_desc
             (own_rows (user req) st (facility_bookings db)))
    end in
  if error res then json_error 500 "Failed to fetch user bookings"
  else
    let bookings := match data res with Some r => r.1 | None => [] end in
    let count := match data res with Some r => r.2 | None => 0 end in
    {| statusCode := 200;
       payload :=
         {| success := true;
            res_data :=
              Some {| items := bookings;
                      pagination :=
                        {| page := page; limit := limit; total := count;
                           totalPages := ceil_div count limit |} |};
            message := None;
            res_error := None |} |}.

(** ** Routes ([routes/facilities.ts]) *)

(** [POST /:id/bookings]. *)
Definition post_bookings (env : Env)
  : AuthRequest CreateBookingRequest → Database →
    Response (uuid * FacilityBooking) * Database :=
  validateRequest (createBookingSchema env) (createBooking env).

(** [PUT /bookings/:id/approve]. *)
Definition put_approve (env : Env)
  : AuthRequest ApproveBookingRequest → Database →
    Response (uuid * FacilityBooking) * Database :=
  requireAdmin (validateRequest approveBookingSchema (approveBooking env)).

(** [PUT /bookings/:id/cancel]. *)
Definition put_cancel (env : Env)
  : AuthRequest unit → Database →
    Response (uuid * FacilityBooking) * Database :=
  cancelBooking env.

(** [GET /:id/bookings]. *)
Definition get_bookings
  : AuthRequest unit → Database →
    Response (PaginatedResponse (uuid * FacilityBooking)) :=
  getFacilityBookings.

(** [GET /bookings/my]. *)
Definition get_my_bookings
  : AuthRequest unit → Database →
    Response (PaginatedResponse (uuid * FacilityBooking)) :=
  getUserBookings.

(** [POST /:id/bookings] up to the insert: the schema, then the reads
    of the handler. *)
Definition post_bookings_read (env : Env)
    (req : AuthRequest CreateBookingRequest) (db : Database)
  : Response (uuid * FacilityBooking) + Facility :=
  if createBookingSchema env (body req) then createBooking_read req db
  else inl (json_error 400 "Validation error").

(** Two creations in flight together: the reads of both are answered on
    the same store before either insert is sent; the inserts then follow
    one another.  The two answers and the store afterwards. *)
Definition post_bookings_interleaved (env1 : Env)
    (req1 : AuthRequest CreateBookingRequest) (env2 : Env)
    (req2 : AuthRequest CreateBookingRequest) (db : Database)
  : Response (uuid * FacilityBooking) * Response (uuid * FacilityBooking)
    * Database :=
  let r1 := post_bookings_read env1 req1 db in
  let r2 := post_bookings_read env2 req2 db in
  let out1 := finish_create env1 req1 r1 db in
  let out2 := finish_create env2 req2 r2 out1.2 in
  (out1.1, out2.1, out2.2).

(** ** The ledger as a transition system

    [step] and [run] serve requests one after the other: each request's
    store calls are completed before the next request begins.  Two
    creations in flight together are [post_bookings_interleaved]. *)

Inductive Operation :=
  | CreateBooking (env : Env) (req : AuthRequest CreateBookingRequest)
  | ApproveOrReject (env : Env) (req : AuthRequest ApproveBookingRequest)
  | CancelBooking (env : Env) (req : AuthRequest unit).

(** The store after one request. *)
Definition step (db : Database) (op : Operation) : Database :=
  match op with
  | CreateBooking env req => (post_bookings env req db).2
  | ApproveOrReject env req => (put_approve env req db).2
  | CancelBooking env req => (put_cancel env req db).2
  end.

(** The store after a sequence of requests, served one after the other. *)
Definition run (ops : list Operation) (db : Database) : Database :=
  foldl step db ops.

(** ** The complaint controller ([controllers/complaintController.ts])

    Complaints live in their own table, next to the set of category keys
    their [category_id] refers to. *)
Module Complaint.

Inductive complaint_status := open | in_progress | resolved | closed.

Inductive complaint_priority := low | medium | high | urgent.

#[global] Instance complaint_status_eq_dec : EqDecision complaint_status.
Proof. solve_decision. Defined.

#[global] Instance complaint_priority_eq_dec :
  EqDecision complaint_priority.
Proof. solve_decision. Defined.

(** A row of [complaints], without its primary key. *)
Record Complaint := {
  user_id : uuid;
  category_id : uuid;
  title : string;
  description : string;
  status : complaint_status;
  priority : complaint_priority;
  image_url : option string;
  admin_notes : option string;
  resolved_at : option timestamptz;
  created_at : timestamptz;
  updated_at : timestamptz
}.

Record Store := {
  complaint_categories : gset uuid;
  complaints : gmap uuid Complaint
}.

Definition with_complaints (st : Store) (tbl : gmap uuid Complaint) : Store :=
  {| complaint_categories := complaint_categories st; complaints := tbl |}.

Record CreateComplaintRequest := {
  rq_category_id : uuid;
  rq_title : string;
  rq_description : string;
  rq_priority : option complaint_priority
}.

Record UpdateComplaintStatusRequest := {
  rq_status : complaint_status;
  rq_admin_notes : option string
}.

(** [req.query] of the complaint listing. *)
Record ComplaintQuery := {
  cq_page : option Z;
  cq_limit : option Z;
  cq_status : option string;
  cq_priority : option string
}.

Definition complaint_status_of_string (s : string)
  : option complaint_status :=
  if String.eqb s "open" then Some open
  else if String.eqb s "in_progress" then Some in_progress
  else if String.eqb s "resolved" then Some resolved
  else if String.eqb s "closed" then Some closed
  else None.

Definition complaint_priority_of_string (s : string)
  : option complaint_priority :=
  if String.eqb s "low" then Some low
  else if String.eqb s "medium" then Some medium
  else if String.eqb s "high" then Some high
  else if String.eqb s "urgent" then Some urgent
  else None.

(** An absent or empty query value is no filter; otherwise the store
    reads the literal ([None] when it names no value of the type). *)
Definition query_filter {A} (read : string → option A) (v : option string)
  : option (option A) :=
  match v with
  | None | Some EmptyString => Some None
  | Some s => Some <$> read s
  end.

(** [createComplaintSchema]: a title of 5 to 200 and a description of 10
    to 2000 characters, counted as Joi counts them; [category_id] and
    [priority] are well-formed by their types. *)
Definition createComplaintSchema (b : CreateComplaintRequest) : bool :=
  (5 <=? js_length (rq_title b))%nat
  && (js_length (rq_title b) <=? 200)%nat
  && (10 <=? js_length (rq_description b))%nat
  && (js_length (rq_description b) <=? 2000)%nat.

(** [updateComplaintStatusSchema]. *)
Definition updateComplaintStatusSchema (b : UpdateComplaintStatusRequest)
  : bool :=
  optional_string_max 1000 (rq_admin_notes b).

(** [.order('created_at', { ascending: false })]. *)
Definition complaint_order (x y : uuid * Complaint) : Prop :=
  created_at y.2 <= created_at x.2.

#[global] Instance complaint_order_dec x y : Decision (complaint_order x y).
Proof. unfold complaint_order. apply _. Defined.

(** The rows the complaint listing selects for an actor. *)
Definition listed_rows (u : User) (st : option complaint_status)
    (pr : option complaint_priority) (tbl : gmap uuid Complaint)
  : list (uuid * Complaint) :=
  let q := from tbl in
  (* If not admin, only show user's own complaints *)
  let q :=
    if decide (role u ≠ admin)
    then filter (λ r, user_id r.2 = u_id u) q
    else q in
  (* Apply filters *)
  let q :=
    match st with
    | Some s => filter (λ r, status r.2 = s) q
    | None => q
    end in
  match pr with
  | Some p => filter (λ r, priority r.2 = p) q
  | None => q
  end.

Definition getComplaints (u : User) (q : ComplaintQuery)
    (tbl : gmap uuid Complaint)
  : Response (PaginatedResponse (uuid * Complaint)) :=
  let page := or_default (cq_page q) 1 in
  let limit := or_default (cq_limit q) 10 in
  let offset := (page - 1) * limit in
  let res :=
    match query_filter complaint_status_of_string (cq_status q),
          query_filter complaint_priority_of_string (cq_priority q) with
    | Some st, Some pr =>
        range offset (offset + limit - 1)
          (merge_sort complaint_order (listed_rows u st pr tbl))
    | _, _ => failed
    end in
  if error res then json_error 500 "Failed to fetch complaints"
  else
    let found := match data res with Some r => r.1 | None => [] end in
    let count := match data res with Some r => r.2 | None => 0 end in
    {| statusCode := 200;
       payload :=
         {| success := true;
            res_data :=
              Some {| items := found;
                      pagination :=
                        {| page := page; limit := limit; total := count;
                           totalPages := ceil_div count limit |} |};
            message := None;
            res_error := None |} |}.

Definition getComplaint (req : AuthRequest unit) (tbl : gmap uuid Complaint)
  : Response (uuid * Complaint) :=
  let id := params_id req in
  let q := filter (λ r, r.1 = id) (from tbl) in
  (* If not admin, only show user's own complaint *)
  let q :=
    if decide (role (user req) ≠ admin)
    then filter (λ r, user_id r.2 = u_id (user req)) q
    else q in
  let res := single q in
  match (if error res then None else data res) with
  | None => json_error 404 "Complaint not found"
  | Some c =>
      {| statusCode := 200;
         payload :=
           {| success := true; res_data := Some c;
              message := Some "Complaint retrieved successfully";
              res_error := None |} |}
  end.

(** The row [createComplaint] inserts; [file] is the name of the uploaded
    image, if any.  The columns it does not give take their defaults. *)
Definition new_complaint (env : Env) (u : User) (b : CreateComplaintRequest)
    (file : option string) : Complaint :=
  {| user_id := u_id u;
     category_id := rq_category_id b;
     title := rq_title b;
     description := rq_description b;
     status := open;
     priority := default medium (rq_priority b);
     image_url := (λ name, "/uploads/" +:+ name) <$> file;
     admin_notes := None;
     resolved_at := None;
     created_at := db_now env;
     updated_at := db_now env |}.

(** [.insert(row).select().single()]: the primary key refuses a key that
    is taken, the foreign key a category that is not in
    [complaint_categories]. *)
Definition createComplaint (env : Env) (req : AuthRequest CreateComplaintRequest)
    (file : option string) (st : Store)
  : Response (uuid * Complaint) * Store :=
  let row := new_complaint env (user req) (body req) file in
  let inserted :=
    if decide (rq_category_id (body req) ∈ complaint_categories st)
    then
      match complaints st !! new_uuid env with
      | Some _ => None
      | None => Some (<[new_uuid env := row]> (complaints st),
                      [(new_uuid env, row)])
      end
    else None in
  match inserted with
  | None => (json_error 500 "Failed to create complaint", st)
  | Some (tbl', rows) =>
      let res := single rows in
      if error res then (json_error 500 "Failed to create complaint", st)
      else
        ({| statusCode := 201;
            payload :=
              {| success := true; res_data := data res;
                 message := Some "Complaint created successfully";
                 res_error := None |} |},
         with_complaints st tbl')
  end.

(** [updateData] of [updateComplaintStatus], followed by the
    [updated_at] trigger: the status always, the admin notes when a
    non-empty text was sent, the resolution time when the new status is
    'resolved'. *)
Definition updateData (env : Env) (b : UpdateComplaintStatusRequest)
    (row : Complaint) : Complaint :=
  {| user_id := user_id row; category_id := category_id row;
     title := title row; description := description row;
     status := rq_status b;
     priority := priority row;
     image_url := image_url row;
     admin_notes :=
       match rq_admin_notes b with
       | None | Some EmptyString => admin_notes row
       | Some n => Some n
       end;
     resolved_at :=
       if decide (rq_status b = resolved) then Some (js_now env)
       else resolved_at row;
     created_at := created_at row;
     updated_at := db_now env |}.

Definition updateComplaintStatus (env : Env)
    (req : AuthRequest UpdateComplaintStatusRequest)
    (tbl : gmap uuid Complaint)
  : Response (uuid * Complaint) * gmap uuid Complaint :=
  let id := params_id req in
  (* Only admins can update status *)
  if decide (role (user req) ≠ admin)
  then (json_error 403 "Admin access required", tbl)
  else
    let tbl' :=
      map_imap (λ k c, Some (if decide (k = id)
                             then updateData env (body req) c else c)) tbl in
    let rows :=
      (λ r, (r.1, updateData env (body req) r.2))
        <$> filter (λ r, r.1 = id) (from tbl) in
    let res := single rows in
    if error res
    then (json_error 500 "Failed to update complaint status", tbl)
    else
      match data res with
      | None => (json_error 404 "Complaint not found", tbl)
      | Some c =>
          ({| statusCode := 200;
              payload :=
                {| success := true; res_data := Some c;
                   message := Some "Complaint status updated successfully";
                   res_error := None |} |},
           tbl')
      end.

(** [PUT /:id/status]: [requireAdmin], then the schema, then the
    handler. *)
Definition put_status (env : Env)
    (req : AuthRequest UpdateComplaintStatusRequest)
    (tbl : gmap uuid Complaint)
  : Response (uuid * Complaint) * gmap uuid Complaint :=
  if decide (role (user req) ≠ admin)
  then (json_error 403 "Admin access required", tbl)
  else if updateComplaintStatusSchema (body req)
  then updateComplaintStatus env req tbl
  else (json_error 400 "Validation error", tbl).

(** [POST /]: the schema, then the handler. *)
Definition post_complaint (env : Env)
    (req : AuthRequest CreateComplaintRequest) (file : option string)
    (st : Store) : Response (uuid * Complaint) * Store :=
  if createComplaintSchema (body req) then createComplaint env req file st
  else (json_error 400 "Validation error", st).

End Complaint.

(** ** Vocabulary of the statements *)

(** Half-open interval overlap, in the words of the specification: the
    intervals from [s1] to [e1] and from [s2] to [e2] conflict iff
    [s1 < e2] and [s2 < e1]. *)
Definition overlaps (s1 e1 s2 e2 : time) : Prop := s1 < e2 ∧ s2 < e1.

(** A booking that still holds its slot. *)
Definition active (b : FacilityBooking) : Prop :=
  status b ∈ [pending; approved].

(** The ledger invariant: on one facility and date, no two distinct
    active bookings overlap. *)
Definition no_double_booking (tbl : gmap uuid FacilityBooking) : Prop :=
  ∀ i j bi bj,
    i ≠ j → tbl !! i = Some bi → tbl !! j = Some bj →
    facility_id bi = facility_id bj → booking_date bi = booking_date bj →
    active bi → active bj →
    ¬ overlaps (start_time bi) (end_time bi) (start_time bj) (end_time bj).

#[global] Instance overlaps_dec s1 e1 s2 e2 : Decision (overlaps s1 e1 s2 e2).
Proof. unfold overlaps. apply _. Defined.

#[global] Instance active_dec b : Decision (active b).
Proof. unfold active. apply _. Defined.

(** The conditions under which [createBooking] inserts a row, read off
    its guards: the facility [f] exists and is active, neither
    operating-hours comparison fires, the store reads the two times as
    [s] and [e], no stored row matches the conflict query, and the
    generated key is free. *)
Definition bookable (env : Env) (req : AuthRequest CreateBookingRequest)
    (db : Database) (f : Facility) (s e : time) : Prop :=
  facilities db !! rq_facility_id (body req) = Some f
  ∧ is_active f = true
  ∧ js_lt (rq_start_time (body req)) (operating_hours_start f) = false
  ∧ js_gt (rq_end_time (body req)) (operating_hours_end f) = false
  ∧ time_of_string (rq_start_time (body req)) = Some s
  ∧ time_of_string (rq_end_time (body req)) = Some e
  ∧ (∀ k r, facility_bookings db !! k = Some r →
            ¬ conflicting (rq_facility_id (body req))
                (rq_booking_date (body req)) s e (k, r))
  ∧ facility_bookings db !! new_uuid env = None.

(** The row inserted under those conditions. *)
Definition created (env : Env) (req : AuthRequest CreateBookingRequest)
    (f : Facility) (s e : time) : FacilityBooking :=
  new_booking env (user req) (body req) s e
    (if requires_approval f then pending else approved).

(** The status changes the handlers perform on a stored booking. *)
Inductive transition : booking_status → booking_status → Prop :=
  | transition_decide st :
      st ∈ [approved; rejected] → transition pending st
  | transition_cancel st :
      st ≠ cancelled → transition st cancelled.

(** One request seen from the ledger: nothing changes, a row is inserted
    under a free key without matching the conflict query against any
    stored row, or one stored row changes its status (and bookkeeping
    columns) along [transition]. *)
Inductive ledger_step (tbl : gmap uuid FacilityBooking)
  : gmap uuid FacilityBooking → Prop :=
  | ledger_same : ledger_step tbl tbl
  | ledger_insert k b :
      tbl !! k = None →
      (∀ j r, tbl !! j = Some r →
              ¬ conflicting (facility_id b) (booking_date b)
                  (start_time b) (end_time b) (j, r)) →
      status b ≠ rejected → status b ≠ cancelled →
      ledger_step tbl (<[k := b]> tbl)
  | ledger_update k b b' :
      tbl !! k = Some b →
      facility_id b' = facility_id b → user_id b' = user_id b →
      booking_date b' = booking_date b →
      start_time b' = start_time b → end_time b' = end_time b →
      transition (status b) (status b') →
      ledger_step tbl (<[k := b']> tbl).



(** The operating-hours guard of [createBooking]. *)
Definition outside_hours (f : Facility) (b : CreateBookingRequest) : bool :=
  js_lt (rq_start_time b) (operating_hours_start f)
  || js_gt (rq_end_time b) (operating_hours_end f).

(** The permission guard of [cancelBooking]: the actor is an
    administrator or the booking's owner. *)
Definition may_cancel (u : User) (b : FacilityBooking) : Prop :=
  role u = admin ∨ user_id b = u_id u.

(** The booking's date and start time lie strictly before the server's
    time of the request. *)
Definition started (env : Env) (b : FacilityBooking) : Prop :=
  bookingDateTime (booking_date b) (start_time b) < js_now env.

(** The request goes through [cancelBooking]. *)
Definition is_cancel (op : Operation) : Prop :=
  match op with
  | CancelBooking _ _ => True
  | _ => False
  end.

(** [p] is the page a listing cuts from the ordered rows [rows]: the
    page number and size are positive, the items are rows
    [(page - 1) * limit] onwards, at most [limit] of them, and the total
    and the number of pages are those of [rows]. *)
Definition page_of (rows : list (uuid * FacilityBooking))
    (p : PaginatedResponse (uuid * FacilityBooking)) : Prop :=
  1 <= limit (pagination p)
  ∧ 0 <= (page (pagination p) - 1) * limit (pagination p)
  ∧ items p
    = take (Z.to_nat (limit (pagination p)))
        (drop (Z.to_nat ((page (pagination p) - 1) * limit (pagination p)))
           rows)
  ∧ total (pagination p) = Z.of_nat (length rows)
  ∧ totalPages (pagination p)
    = ceil_div (total (pagination p)) (limit (pagination p)).

(** The status filter the store reads from [req.query.status]: none for
    an absent or empty value, the named status otherwise ([None] when the
    value names no status, which the store refuses). *)
Definition status_filter (q : Query) : option (option booking_status) :=
  match q_status q with
  | None | Some EmptyString => Some None
  | Some s => Some <$> status_of_string s
  end.

(** Approval bookkeeping: a pending booking has no approver and no
    approval time; an approved or rejected one has both. *)
Definition approval_recorded (tbl : gmap uuid FacilityBooking) : Prop :=
  ∀ k b, tbl !! k = Some b →
    (status b = pending → approved_by b = None ∧ approved_at b = None)
    ∧ (status b = approved ∨ status b = rejected →
       is_Some (approved_by b) ∧ is_Some (approved_at b)).

(** [b'] holds the same request as [b]: facility, owner, date, times,
    purpose, notes and creation time. *)
Definition same_request (b b' : FacilityBooking) : Prop :=
  facility_id b' = facility_id b
  ∧ user_id b' = user_id b
  ∧ booking_date b' = booking_date b
  ∧ start_time b' = start_time b
  ∧ end_time b' = end_time b
  ∧ purpose b' = purpose b
  ∧ notes b' = notes b
  ∧ created_at b' = created_at b.

(** The complaint requests that write, and the store after a sequence
    of them. *)
Inductive ComplaintOperation :=
  | CreateComplaint (env : Env)
      (req : AuthRequest Complaint.CreateComplaintRequest)
      (file : option string)
  | UpdateComplaintStatus (env : Env)
      (req : AuthRequest Complaint.UpdateComplaintStatusRequest).

Definition complaint_step (st : Complaint.Store) (op : ComplaintOperation)
  : Complaint.Store :=
  match op with
  | CreateComplaint env req file => (Complaint.post_complaint env req file st).2
  | UpdateComplaintStatus env req =>
      Complaint.with_complaints st
        (Complaint.put_status env req (Complaint.complaints st)).2
  end.

Definition complaint_run (ops : list ComplaintOperation)
    (st : Complaint.Store) : Complaint.Store :=
  foldl complaint_step st ops.

(** Every resolved complaint carries a resolution time. *)
Definition resolution_recorded (tbl : gmap uuid Complaint.Complaint) : Prop :=
  ∀ k c, tbl !! k = Some c →
    Complaint.status c = Complaint.resolved →
    is_Some (Complaint.resolved_at c).

(** ** Sample data

    Two facilities open from 08:00 to 20:00, one booked directly and one
    through approval, two residents and an administrator. *)
Module Sample.

Definition court : Facility :=
  {| requires_approval := false;
     operating_hours_start := "08:00:00";
     operating_hours_end := "20:00:00";
     is_active := true |}.

Definition hall : Facility :=
  {| requires_approval := true;
     operating_hours_start := "08:00:00";
     operating_hours_end := "20:00:00";
     is_active := true |}.

Definition empty_ledger : Database :=
  {| facilities := <["court" := court]> (<["hall" := hall]> ∅);
     facility_bookings := ∅ |}.

Definition alice : User := {| u_id := "alice"; role := resident |}.
Definition bob : User := {| u_id := "bob"; role := resident |}.
Definition root : User := {| u_id := "root"; role := admin |}.

Definition no_query : Query :=
  {| q_page := None; q_limit := None; q_status := None; q_date := None |}.

(** The clock readings and generated key of the [n]-th request. *)
Definition at_ (n : Z) (k : uuid) : Env :=
  {| js_now := 1000 * n; db_now := 1000 * n + 1; new_uuid := k |}.

(** A booking request for day 20000, written as a date alone, sent to
    path id [path]. *)
Definition book (u : User) (path fid : uuid) (s e : string)
  : AuthRequest CreateBookingRequest :=
  {| user := u; params_id := path; query := no_query;
     body := {| rq_facility_id := fid; rq_booking_date := 20000;
                rq_booking_instant := 20000 * 86400000;
                rq_start_time := s; rq_end_time := e;
                rq_purpose := None; rq_notes := None |} |}.

Definition decide_ (u : User) (k : uuid) (st : booking_status)
  : AuthRequest ApproveBookingRequest :=
  {| user := u; params_id := k; query := no_query;
     body := {| rq_status := st; rq_admin_notes := None |} |}.

Definition on (u : User) (k : uuid) : AuthRequest unit :=
  {| user := u; params_id := k; query := no_query; body := tt |}.

(** Alice holds the court from 10:00 to 12:00 (approved at once) and
    has asked for the hall from 09:00 to 10:00 (pending). *)
Definition two_bookings : Database :=
  run [CreateBooking (at_ 1 "b1") (book alice "court" "court" "10:00" "12:00");
       CreateBooking (at_ 2 "b2") (book alice "hall" "hall" "09:00" "10:00")]
      empty_ledger.

(** The hall request has then been rejected by the administrator. *)
Definition hall_rejected : Database :=
  step two_bookings (ApproveOrReject (at_ 3 "") (decide_ root "b2" rejected)).

(** Or approved. *)
Definition hall_approved : Database :=
  step two_bookings (ApproveOrReject (at_ 3 "") (decide_ root "b2" approved)).

(** What the administrator's approval of the hall request answers and
    leaves behind. *)
Definition first_approval
  : Response (uuid * FacilityBooking) * Database :=
  put_approve (at_ 3 "") (decide_ root "b2" approved) two_bookings.

(** The same request, sent again. *)
Definition second_approval
  : Response (uuid * FacilityBooking) * Database :=
  put_approve (at_ 4 "") (decide_ root "b2" approved) first_approval.2.


(** Alice asks for the court from 10:00 to 12:00 and Bob from 11:00 to
    13:00 at the same moment: both conflict queries are answered on the
    empty ledger before either insert. *)
Definition race
  : Response (uuid * FacilityBooking) * Response (uuid * FacilityBooking)
    * Database :=
  post_bookings_interleaved
    (at_ 1 "b1") (book alice "court" "court" "10:00" "12:00")
    (at_ 2 "b2") (book bob "court" "court" "11:00" "13:00")
    empty_ledger.

(** The same two requests, Bob's served after Alice's is completed. *)
Definition no_race : Response (uuid * FacilityBooking) * Database :=
  post_bookings (at_ 2 "b2") (book bob "court" "court" "11:00" "13:00")
    (post_bookings (at_ 1 "b1") (book alice "court" "court" "10:00" "12:00")
       empty_ledger).2.

(** A day of requests on top of [two_bookings]: Bob takes the court
    from 12:00 to 13:00, is refused 11:00 to 13:00, asks for the hall
    from 10:00 to 11:00; the administrator approves Alice's hall
    request; Bob books the court from 13:00 to 14:00 and cancels it. *)
Definition busy_day : list Operation :=
  [CreateBooking (at_ 3 "b3") (book bob "court" "court" "12:00" "13:00");
   CreateBooking (at_ 4 "b4") (book bob "court" "court" "11:00" "13:00");
   CreateBooking (at_ 5 "b5") (book bob "hall" "hall" "10:00" "11:00");
   ApproveOrReject (at_ 6 "") (decide_ root "b2" approved);
   CreateBooking (at_ 7 "b7") (book bob "court" "court" "13:00" "14:00");
   CancelBooking (at_ 8 "") (on bob "b7")].

(** What Bob is shown of the court's bookings. *)
Definition court_page : PaginatedResponse (uuid * FacilityBooking) :=
  match res_data (payload (get_bookings (on bob "court") two_bookings)) with
  | Some p => p
  | None =>
      {| items := [];
         pagination := {| page := 0; limit := 0; total := 0;
                          totalPages := 0 |} |}
  end.

(** What Alice is shown of her own bookings. *)
Definition alice_page : PaginatedResponse (uuid * FacilityBooking) :=
  match res_data (payload (get_my_bookings (on alice "") two_bookings)) with
  | Some p => p
  | None =>
      {| items := [];
         pagination := {| page := 0; limit := 0; total := 0;
                          totalPages := 0 |} |}
  end.

(** One category, and a complaint by Alice about it. *)
Definition no_complaints : Complaint.Store :=
  {| Complaint.complaint_categories := {["plumbing"]};
     Complaint.complaints := ∅ |}.

Definition leak : AuthRequest Complaint.CreateComplaintRequest :=
  {| user := alice; params_id := ""; query := no_query;
     body := {| Complaint.rq_category_id := "plumbing";
                Complaint.rq_title := "Leaking tap";
                Complaint.rq_description := "The kitchen tap drips all night";
                Complaint.rq_priority := None |} |}.

Definition set_status (u : User) (k : uuid)
    (s : Complaint.complaint_status)
  : AuthRequest Complaint.UpdateComplaintStatusRequest :=
  {| user := u; params_id := k; query := no_query;
     body := {| Complaint.rq_status := s;
                Complaint.rq_admin_notes := None |} |}.

Definition one_complaint : Complaint.Store :=
  complaint_step no_complaints (CreateComplaint (at_ 1 "c1") leak None).

Definition all_complaints : Complaint.ComplaintQuery :=
  {| Complaint.cq_page := None; Complaint.cq_limit := None;
     Complaint.cq_status := None; Complaint.cq_priority := None |}.

(** What Alice is shown of the complaints. *)
Definition alice_complaints : PaginatedResponse (uuid * Complaint.Complaint) :=
  match res_data
          (payload (Complaint.getComplaints alice all_complaints
                      (Complaint.complaints one_complaint))) with
  | Some p => p
  | None =>
      {| items := [];
         pagination := {| page := 0; limit := 0; total := 0;
                          totalPages := 0 |} |}
  end.

(** What Bob is shown of the hall's bookings. *)
Definition hall_page : PaginatedResponse (uuid * FacilityBooking) :=
  match res_data (payload (get_bookings (on bob "hall") two_bookings)) with
  | Some p => p
  | None =>
      {| items := [];
         pagination := {| page := 0; limit := 0; total := 0;
                          totalPages := 0 |} |}
  end.

End Sample.
(** * Properties *)

(** ** The store client on a keyed table *)

Lemma NoDup_all_eq {A} (l : list A) (a : A) :
  NoDup l → (∀ x, x ∈ l → x = a) → l = [] ∨ l = [a].
Proof.
  intros Hnd Hall. destruct l as [|x [|y l]]; [by left | right | exfalso].
  - f_equal. apply Hall. by left.
  - assert (x = a) as -> by (apply Hall; by left).
    assert (y = a) as -> by (apply Hall; right; by left).
    inversion Hnd as [|? ? Hnotin _]; subst. apply Hnotin. by left.
Qed.

(** A filter that pins the primary key selects at most the row stored
    under that key. *)
Lemma filter_by_key {A} (P : uuid * A → Prop) `{!∀ r, Decision (P r)}
    (k : uuid) (tbl : gmap uuid A) :
  (∀ r, P r → r.1 = k) →
  filter P (from tbl)
  = match tbl !! k with
    | Some v => if decide (P (k, v)) then [(k, v)] else []
    | None => []
    end.
Proof.
  intros Hkey. unfold from.
  assert (NoDup (filter P (map_to_list tbl))) as Hnd
    by apply NoDup_filter, NoDup_map_to_list.
  assert (∀ x, x ∈ filter P (map_to_list tbl) ↔ P x ∧ tbl !! x.1 = Some x.2)
    as Hin.
  { intros [i v]. rewrite list_elem_of_filter, elem_of_map_to_list. done. }
  assert (∀ x, x ∈ filter P (map_to_list tbl) → ∃ v, tbl !! k = Some v ∧ x = (k, v))
    as Hshape.
  { intros [i w] [HPx Hx]%Hin. simpl in Hx.
    pose proof (Hkey _ HPx) as Hi. simpl in Hi. subst i. eauto. }
  destruct (tbl !! k) as [v|] eqn:Hk.
  - destruct (decide (P (k, v))) as [HP|HP].
    + destruct (NoDup_all_eq _ (k, v) Hnd) as [Hnil| ->]; [|exfalso|done].
      * intros x (w & Hw & ->)%Hshape. congruence.
      * assert ((k, v) ∈ filter P (map_to_list tbl)) as Hmem by by apply Hin.
        rewrite Hnil in Hmem. by apply not_elem_of_nil in Hmem.
    + apply elem_of_nil_inv. intros x Hx.
      destruct (Hshape _ Hx) as (w & Hw & ->). simplify_eq.
      by apply Hin in Hx as [? _].
  - apply elem_of_nil_inv. intros x (w & Hw & _)%Hshape. done.
Qed.

(** An update that pins the primary key rewrites at most that row. *)
Lemma update_by_key (env : Env) (set : FacilityBooking → FacilityBooking)
    (P : uuid * FacilityBooking → Prop) `{!∀ r, Decision (P r)}
    (k : uuid) (tbl : gmap uuid FacilityBooking) :
  (∀ r, P r → r.1 = k) →
  update env set P tbl
  = match tbl !! k with
    | Some v =>
        if decide (P (k, v))
        then (<[k := update_updated_at_column env (set v)]> tbl,
              [(k, update_updated_at_column env (set v))])
        else (tbl, [])
    | None => (tbl, [])
    end.
Proof.
  intros Hkey. unfold update. rewrite (filter_by_key P k tbl Hkey).
  assert (∀ i v, tbl !! i = Some v → i ≠ k → ¬ P (i, v)) as Hother.
  { intros i v _ Hne HP. apply Hne. exact (Hkey _ HP). }
  destruct (tbl !! k) as [v|] eqn:Hk.
  - destruct (decide (P (k, v))) as [HP|HP]; simpl; f_equal.
    + apply map_eq. intros i. rewrite map_lookup_imap.
      destruct (decide (k = i)) as [<-|Hne].
      * rewrite lookup_insert_eq, Hk. simpl. by rewrite decide_True.
      * rewrite lookup_insert_ne by done.
        destruct (tbl !! i) as [w|] eqn:Hi; simpl; [|done].
        rewrite decide_False; [done|]. apply (Hother i w Hi). congruence.
    + apply map_eq. intros i. rewrite map_lookup_imap.
      destruct (tbl !! i) as [w|] eqn:Hi; simpl; [|done].
      rewrite decide_False; [done|].
      destruct (decide (i = k)) as [->|Hne]; [congruence|].
      by apply (Hother i w Hi).
  - simpl. f_equal. apply map_eq. intros i. rewrite map_lookup_imap.
    destruct (tbl !! i) as [w|] eqn:Hi; simpl; [|done].
    rewrite decide_False; [done|].
    intros HP. pose proof (Hkey _ HP) as Hik. simpl in Hik. congruence.
Qed.

(** ** [createBooking] *)

Lemma no_conflict_iff fid d s e (tbl : gmap uuid FacilityBooking) :
  filter (conflicting fid d s e) (from tbl) = []
  ↔ ∀ k r, tbl !! k = Some r → ¬ conflicting fid d s e (k, r).
Proof.
  unfold from. split.
  - intros Hnil k r Hk Hc.
    assert ((k, r) ∈ filter (conflicting fid d s e) (map_to_list tbl)) as Hin.
    { apply list_elem_of_filter. split; [done|].
      by apply elem_of_map_to_list. }
    rewrite Hnil in Hin. by apply not_elem_of_nil in Hin.
  - intros Hno. apply elem_of_nil_inv. intros [k r] Hin.
    apply list_elem_of_filter in Hin as [Hc Hin].
    apply elem_of_map_to_list in Hin. by apply (Hno k r).
Qed.

Lemma facility_by_id (fid : uuid) (tbl : gmap uuid Facility) :
  filter (λ r, r.1 = fid ∧ is_active r.2 = true) (from tbl)
  = match tbl !! fid with
    | Some f => if is_active f then [(fid, f)] else []
    | None => []
    end.
Proof.
  rewrite (filter_by_key _ fid) by (by intros r [? _]).
  destruct (tbl !! fid) as [f|]; [|done]. simpl.
  destruct (is_active f); [by rewrite decide_True|].
  rewrite decide_False; [done|]. by intros [_ ?].
Qed.

(** Under [bookable], [createBooking] answers 201 with the inserted row
    and stores it under the generated key. *)
Lemma createBooking_bookable env req db f s e :
  bookable env req db f s e →
  createBooking env req db
  = ({| statusCode := 201;
        payload :=
          {| success := true;
             res_data := Some (new_uuid env, created env req f s e);
             message :=
               Some (if requires_approval f
                     then "Booking submitted for approval"
                     else "Booking confirmed successfully");
             res_error := None |} |},
     with_bookings db
       (<[new_uuid env := created env req f s e]> (facility_bookings db))).
Proof.
  intros (Hf & Hact & Hlo & Hhi & Hs & He & Hfree & Hnew).
  unfold createBooking. rewrite facility_by_id, Hf, Hact. simpl.
  rewrite Hlo, Hhi. simpl.
  unfold conflictingBookings. rewrite Hs, He. simpl.
  apply no_conflict_iff in Hfree. rewrite Hfree. simpl.
  unfold insertBooking, insert. rewrite Hs, He, Hnew. simpl. done.
Qed.

(** Otherwise it stores nothing and does not answer 201. *)
Lemma createBooking_cases env req db :
  (∃ f s e, bookable env req db f s e)
  ∨ ((createBooking env req db).2 = db
     ∧ statusCode (createBooking env req db).1 ≠ 201).
Proof.
  unfold createBooking. rewrite facility_by_id.
  destruct (facilities db !! rq_facility_id (body req)) as [f|] eqn:Hf;
    [|by right].
  destruct (is_active f) eqn:Hact; [|by right]. simpl.
  destruct (js_lt _ _) eqn:Hlo; [by right|].
  destruct (js_gt _ _) eqn:Hhi; [by right|]. simpl.
  unfold conflictingBookings, insertBooking, insert.
  destruct (time_of_string (rq_start_time (body req))) as [s|] eqn:Hs;
    [|by right].
  destruct (time_of_string (rq_end_time (body req))) as [e|] eqn:He;
    [|by right]. simpl.
  destruct (filter _ _) as [|r l] eqn:Hfree; [|by right]. simpl.
  destruct (facility_bookings db !! new_uuid env) eqn:Hnew; [by right|].
  left. exists f, s, e. unfold bookable.
  by rewrite <- no_conflict_iff.
Qed.

Lemma createBooking_201 env req db :
  statusCode (createBooking env req db).1 = 201
  ↔ ∃ f s e, bookable env req db f s e.
Proof.
  split.
  - intros H201. destruct (createBooking_cases env req db) as [?|[_ ?]]; done.
  - intros (f & s & e & Hb). by rewrite (createBooking_bookable _ _ _ f s e).
Qed.

Lemma post_bookings_cases env req db :
  (∃ f s e, bookable env req db f s e
            ∧ post_bookings env req db = createBooking env req db)
  ∨ ((post_bookings env req db).2 = db
     ∧ statusCode (post_bookings env req db).1 ≠ 201).
Proof.
  unfold post_bookings, validateRequest.
  destruct (createBookingSchema env (body req)); [|by right].
  destruct (createBooking_cases env req db) as [(f & s & e & Hb)|?];
    [left; eauto|by right].
Qed.

(** ** [approveBooking] and [cancelBooking] *)

(** The conditional update either rewrites the pending row under the
    given key, or matches nothing, and then [.single()] reports an
    error. *)
Lemma approveBooking_eq env req db :
  approveBooking env req db
  = if decide (role (user req) ≠ admin)
    then (json_error 403 "Admin access required", db)
    else
      match facility_bookings db !! params_id req with
      | Some b =>
          if decide (status b = pending)
          then
            let b' :=
              update_updated_at_column env
                (updateData env (user req) (body req) b) in
            ({| statusCode := 200;
                payload :=
                  {| success := true;
                     res_data := Some (params_id req, b');
                     message :=
                       Some ("Booking "
                             +:+ status_name (rq_status (body req))
                             +:+ " successfully");
                     res_error := None |} |},
             with_bookings db (<[params_id req := b']> (facility_bookings db)))
          else (json_error 500 "Failed to update booking status", db)
      | None => (json_error 500 "Failed to update booking status", db)
      end.
Proof.
  unfold approveBooking. destruct (decide (role (user req) ≠ admin)); [done|].
  rewrite (update_by_key _ _ _ (params_id req)) by (by intros r [? _]).
  destruct (facility_bookings db !! params_id req) as [b|]; [|done].
  destruct (decide (status b = pending)) as [Hp|Hp].
  - by rewrite decide_True by done.
  - rewrite decide_False; [done|]. by intros [_ ?].
Qed.

Lemma cancelBooking_eq env req db :
  cancelBooking env req db
  = match facility_bookings db !! params_id req with
    | None => (json_error 404 "Booking not found", db)
    | Some b =>
        if decide (role (user req) ≠ admin ∧ user_id b ≠ u_id (user req))
        then (json_error 403 "Access denied", db)
        else if decide (status b = cancelled)
        then (json_error 400 "Booking is already cancelled", db)
        else if bookingDateTime (booking_date b) (start_time b) <? js_now env
        then (json_error 400 "Cannot cancel past bookings", db)
        else
          let b' := update_updated_at_column env (set_cancelled b) in
          ({| statusCode := 200;
              payload :=
                {| success := true;
                   res_data := Some (params_id req, b');
                   message := Some "Booking cancelled successfully";
                   res_error := None |} |},
           with_bookings db (<[params_id req := b']> (facility_bookings db)))
    end.
Proof.
  unfold cancelBooking.
  rewrite (filter_by_key _ (params_id req)) by done.
  rewrite (update_by_key _ _ _ (params_id req)) by done.
  destruct (facility_bookings db !! params_id req) as [b|]; [|done].
  by rewrite !decide_True by done.
Qed.

(** ** The handlers as ledger steps *)

Lemma step_facilities db op : facilities (step db op) = facilities db.
Proof.
  destruct op as [env req|env req|env req]; simpl.
  - destruct (post_bookings_cases env req db) as [(f & s & e & Hb & ->)|[-> _]];
      [|done].
    by rewrite (createBooking_bookable _ _ _ f s e).
  - unfold put_approve, requireAdmin, validateRequest.
    case_decide; [done|]. destruct (approveBookingSchema _); [|done].
    rewrite approveBooking_eq.
    repeat (case_decide || case_match); done.
  - unfold put_cancel. rewrite cancelBooking_eq.
    repeat (case_decide || case_match); done.
Qed.

Lemma step_ledger db op :
  ledger_step (facility_bookings db) (facility_bookings (step db op)).
Proof.
  destruct op as [env req|env req|env req]; simpl.
  - destruct (post_bookings_cases env req db) as [(f & s & e & Hb & ->)|[-> _]];
      [|constructor].
    rewrite (createBooking_bookable _ _ _ f s e) by done. simpl.
    destruct Hb as (_ & _ & _ & _ & _ & _ & Hfree & Hnew).
    apply ledger_insert; [done|done| |];
      unfold created; simpl; by destruct (requires_approval f).
  - unfold put_approve, requireAdmin, validateRequest.
    case_decide; [constructor|].
    destruct (approveBookingSchema _) eqn:Hschema; [|constructor].
    rewrite approveBooking_eq. case_decide; [done|].
    destruct (facility_bookings db !! params_id req) as [b|] eqn:Hb;
      [|constructor].
    case_decide as Hp; [|constructor]. simpl.
    apply (ledger_update _ _ b); try done. simpl. rewrite Hp.
    apply transition_decide.
    unfold approveBookingSchema in Hschema.
    apply andb_prop in Hschema as [Hst _]. by apply bool_decide_eq_true in Hst.
  - unfold put_cancel. rewrite cancelBooking_eq.
    destruct (facility_bookings db !! params_id req) as [b|] eqn:Hb;
      [|constructor].
    case_decide; [constructor|]. case_decide as Hc; [constructor|].
    case_match; [constructor|]. simpl.
    apply (ledger_update _ _ b); try done. simpl.
    by apply transition_cancel.
Qed.

(** ** The conflict query against half-open overlap *)

Lemma overlaps_conflict_clause s e a b :
  overlaps s e a b → conflict_clause s e a b.
Proof. unfold overlaps, conflict_clause. lia. Qed.

Lemma conflict_clause_overlaps s e a b :
  s < e → a < b → conflict_clause s e a b → overlaps s e a b.
Proof. unfold overlaps, conflict_clause. lia. Qed.

Lemma overlaps_sym s1 e1 s2 e2 : overlaps s1 e1 s2 e2 → overlaps s2 e2 s1 e1.
Proof. unfold overlaps. lia. Qed.

Lemma active_iff b : active b ↔ status b = pending ∨ status b = approved.
Proof. unfold active. rewrite !elem_of_cons, elem_of_nil. tauto. Qed.

Lemma active_conflict_status b : active b → status b ∈ [approved; pending].
Proof. rewrite active_iff, !elem_of_cons, elem_of_nil. tauto. Qed.

Lemma transition_active b b' :
  transition (status b) (status b') → active b' → active b.
Proof.
  rewrite !active_iff. intros Ht Ha.
  inversion Ht as [st Hst Hb Hb'|st Hst Hb Hb']; [by left|].
  rewrite <- Hb' in Ha. by destruct Ha.
Qed.

Lemma ledger_step_no_double_booking tbl tbl' :
  ledger_step tbl tbl' → no_double_booking tbl → no_double_booking tbl'.
Proof.
  intros Hstep Hinv.
  destruct Hstep as [|k b Hk Hfree _ _|k b b' Hk Hf _ Hd Hs He Ht]; [done| |].
  - intros i j bi bj Hij Hi Hj Hfac Hdate Hai Haj Hov.
    destruct (decide (i = k)) as [->|Hik].
    + rewrite lookup_insert_eq in Hi. rewrite lookup_insert_ne in Hj by done.
      simplify_eq. apply (Hfree j bj Hj). unfold conflicting. simpl.
      split_and!; [done|done|by apply active_conflict_status|].
      by apply overlaps_conflict_clause.
    + rewrite lookup_insert_ne in Hi by done.
      destruct (decide (j = k)) as [->|Hjk].
      * rewrite lookup_insert_eq in Hj. simplify_eq.
        apply (Hfree i bi Hi). unfold conflicting. simpl.
        split_and!; [done|done|by apply active_conflict_status|].
        by apply overlaps_conflict_clause, overlaps_sym.
      * rewrite lookup_insert_ne in Hj by done.
        by apply (Hinv i j bi bj).
  - intros i j bi bj Hij Hi Hj Hfac Hdate Hai Haj Hov.
    destruct (decide (i = k)) as [->|Hik].
    + rewrite lookup_insert_eq in Hi. rewrite lookup_insert_ne in Hj by done.
      simplify_eq.
      apply (Hinv k j b bj);
        first [done | congruence | by apply (transition_active b bi)
              | by rewrite <- Hs, <- He].
    + rewrite lookup_insert_ne in Hi by done.
      destruct (decide (j = k)) as [->|Hjk].
      * rewrite lookup_insert_eq in Hj. simplify_eq.
        apply (Hinv i k bi b);
          first [done | congruence | by apply (transition_active b bj)
                | by rewrite <- Hs, <- He].
      * rewrite lookup_insert_ne in Hj by done.
        by apply (Hinv i j bi bj).
Qed.

Lemma run_cons op ops db : run (op :: ops) db = run ops (step db op).
Proof. done. Qed.

(** ** Times of day as text *)

Ltac split_bits :=
  repeat match goal with
         | |- context [if ?b then _ else _] =>
             is_var b; destruct b; try done
         | |- context [match ?c with Ascii _ _ _ _ _ _ _ _ => _ end] =>
             is_var c; destruct c
         end.

(** The two shapes the pattern lets through: H:MM and HH:MM. *)
Lemma time_pattern_chars s :
  time_pattern s = true →
  (∃ h m1 m2,
     s = String h (String ":" (String m1 (String m2 EmptyString)))
     ∧ char_between "0" "9" h = true
     ∧ char_between "0" "5" m1 = true ∧ char_between "0" "9" m2 = true)
  ∨ (∃ h1 h2 m1 m2,
       s = String h1 (String h2 (String ":" (String m1 (String m2
             EmptyString))))
       ∧ ((char_between "0" "1" h1 = true ∧ char_between "0" "9" h2 = true)
          ∨ (h1 = "2"%char ∧ char_between "0" "3" h2 = true))
       ∧ char_between "0" "5" m1 = true ∧ char_between "0" "9" m2 = true).
Proof.
  unfold time_pattern.
  destruct s as [|c1 [|c2 [|c3 [|c4 [|c5 [|c6 s]]]]]]; simpl; try done;
    split_bits.
  all: intros H; apply andb_prop in H as [[H1 H2]%andb_prop H3].
  all: first
         [ left; eexists _, _, _; split; [reflexivity|]; by split_and!
         | right; eexists _, _, _, _; split; [reflexivity|];
           split_and!; try done;
           apply orb_prop in H1
             as [[? ?]%andb_prop|[?%Ascii.eqb_eq ?]%andb_prop]; auto ].
Qed.

Lemma char_between_digit lo hi c :
  char_between lo hi c = true → digit lo <= digit c <= digit hi.
Proof.
  unfold char_between, digit.
  intros [?%N.leb_le ?%N.leb_le]%andb_prop. lia.
Qed.

Lemma time_of_string_short h m1 m2 :
  time_pattern (String h (String ":" (String m1 (String m2 EmptyString))))
  = true →
  time_of_string (String h (String ":" (String m1 (String m2 EmptyString))))
  = Some (digit h * 3600 + (digit m1 * 10 + digit m2) * 60).
Proof. unfold time_of_string. by intros ->. Qed.

Lemma time_of_string_long h1 h2 m1 m2 :
  time_pattern
    (String h1 (String h2 (String ":" (String m1 (String m2 EmptyString)))))
  = true →
  time_of_string
    (String h1 (String h2 (String ":" (String m1 (String m2 EmptyString)))))
  = Some ((digit h1 * 10 + digit h2) * 3600
          + (digit m1 * 10 + digit m2) * 60).
Proof. unfold time_of_string. by intros ->. Qed.

Lemma time_of_string_pattern s t :
  time_of_string s = Some t → time_pattern s = true.
Proof. unfold time_of_string. by destruct (time_pattern s). Qed.

Lemma time_of_string_bounds s t :
  time_of_string s = Some t → 0 <= t <= 86340 ∧ t mod 60 = 0.
Proof.
  intros Ht. pose proof (time_of_string_pattern _ _ Ht) as Hp.
  destruct (time_pattern_chars s Hp)
    as [(h & m1 & m2 & -> & Hh & Hm1 & Hm2)
       |(h1 & h2 & m1 & m2 & -> & Hh & Hm1 & Hm2)].
  - rewrite time_of_string_short in Ht by done. injection Ht as <-.
    apply char_between_digit in Hh, Hm1, Hm2.
    change (digit "0") with 0 in *. change (digit "9") with 9 in *.
    change (digit "5") with 5 in *.
    split; [lia|].
    replace (digit h * 3600 + (digit m1 * 10 + digit m2) * 60)
      with ((digit h * 60 + digit m1 * 10 + digit m2) * 60) by lia.
    apply Z.mod_mul. lia.
  - rewrite time_of_string_long in Ht by done. injection Ht as <-.
    apply char_between_digit in Hm1, Hm2.
    change (digit "0") with 0 in *. change (digit "9") with 9 in *.
    change (digit "5") with 5 in *.
    assert (0 <= digit h1 * 10 + digit h2 <= 23) as Hhours.
    { destruct Hh as [[Hh1 Hh2]|[-> Hh2]];
        [apply char_between_digit in Hh1|];
        apply char_between_digit in Hh2;
        change (digit "0") with 0 in *; change (digit "9") with 9 in *;
        change (digit "1") with 1 in *; change (digit "2") with 2 in *;
        change (digit "3") with 3 in *; lia. }
    split; [lia|].
    replace ((digit h1 * 10 + digit h2) * 3600
             + (digit m1 * 10 + digit m2) * 60)
      with (((digit h1 * 10 + digit h2) * 60 + digit m1 * 10 + digit m2) * 60)
      by lia.
    apply Z.mod_mul. lia.
Qed.

Lemma ascii_compare_digit a b :
  match Ascii.compare a b with
  | Eq => digit a = digit b
  | Lt => digit a < digit b
  | Gt => digit b < digit a
  end.
Proof.
  unfold Ascii.compare, digit.
  destruct (N.compare_spec (N_of_ascii a) (N_of_ascii b)); lia.
Qed.

Lemma long_times_order h1 h2 m1 m2 g1 g2 n1 n2 :
  0 <= digit h2 <= 9 → 0 <= digit m1 <= 5 → 0 <= digit m2 <= 9 →
  0 <= digit g2 <= 9 → 0 <= digit n1 <= 5 → 0 <= digit n2 <= 9 →
  js_lt
    (String h1 (String h2 (String ":" (String m1 (String m2 EmptyString)))))
    (String g1 (String g2 (String ":" (String n1 (String n2 EmptyString)))))
  = true
  ↔ (digit h1 * 10 + digit h2) * 3600 + (digit m1 * 10 + digit m2) * 60
    < (digit g1 * 10 + digit g2) * 3600 + (digit n1 * 10 + digit n2) * 60.
Proof.
  intros Hh2 Hm1 Hm2 Hg2 Hn1 Hn2. unfold js_lt, String.ltb. simpl.
  pose proof (ascii_compare_digit h1 g1) as C1.
  pose proof (ascii_compare_digit h2 g2) as C2.
  pose proof (ascii_compare_digit m1 n1) as C3.
  pose proof (ascii_compare_digit m2 n2) as C4.
  destruct (Ascii.compare h1 g1), (Ascii.compare h2 g2),
    (Ascii.compare m1 n1), (Ascii.compare m2 n2);
    simpl; split; intros ?; try done; lia.
Qed.

Lemma string_compare_prefix s t :
  String.compare s (s +:+ t)
  = match t with EmptyString => Eq | String _ _ => Lt end.
Proof.
  induction s as [|c s IH]; simpl; [by destruct t|].
  unfold Ascii.compare. by rewrite N.compare_refl.
Qed.

Lemma string_app_empty s : s +:+ "" = s.
Proof.
  induction s as [|c s IH]; [done|].
  change (String c (s +:+ "") = String c s). by f_equal.
Qed.

Lemma string_compare_prefix_r s t :
  String.compare (s +:+ t) s
  = match t with EmptyString => Eq | String _ _ => Gt end.
Proof.
  induction s as [|c s IH]; simpl; [by destruct t|].
  unfold Ascii.compare. by rewrite N.compare_refl.
Qed.






(** ** [createBooking] between its store calls *)

(** Served alone, the reads and the insert make up the route. *)
Lemma post_bookings_split env req db :
  post_bookings env req db
  = finish_create env req (post_bookings_read env req db) db.
Proof.
  unfold post_bookings, validateRequest, post_bookings_read.
  destruct (createBookingSchema env (body req)); [|done].
  unfold createBooking, createBooking_read, finish_create,
    createBooking_write.
  repeat (case_match; simplify_eq; try done).
Qed.

(** ** The conflict query on a ledger *)

Lemma conflicting_after_insert fid d s e (tbl : gmap uuid FacilityBooking)
    k b :
  tbl !! k = None →
  filter (conflicting fid d s e) (from tbl) = [] →
  filter (conflicting fid d s e) (from (<[k := b]> tbl))
  = if decide (conflicting fid d s e (k, b)) then [(k, b)] else [].
Proof.
  intros Hk Hnil. unfold from in *.
  assert (filter (conflicting fid d s e) (map_to_list (<[k := b]> tbl))
          ≡ₚ filter (conflicting fid d s e) ((k, b) :: map_to_list tbl))
    as Hperm by (by rewrite (map_to_list_insert tbl k b Hk)).
  rewrite filter_cons, Hnil in Hperm.
  destruct (decide (conflicting fid d s e (k, b))).
  - by apply Permutation_singleton_r in Hperm.
  - by apply Permutation_nil_r in Hperm.
Qed.

(** For requested times [s < e] and stored bookings that start before
    they end, the conflict query returns the keys of the pending and
    approved bookings of the facility and date whose interval overlaps
    the requested one. *)
Lemma conflictingBookings_overlaps fid d stxt etxt s e
    (tbl : gmap uuid FacilityBooking) :
  s < e →
  time_of_string stxt = Some s → time_of_string etxt = Some e →
  (∀ k r, tbl !! k = Some r → start_time r < end_time r) →
  ∃ l, conflictingBookings fid d stxt etxt tbl = fulfilled l
       ∧ ∀ k, k ∈ l
              ↔ ∃ r, tbl !! k = Some r
                     ∧ facility_id r = fid ∧ booking_date r = d
                     ∧ active r
                     ∧ overlaps s e (start_time r) (end_time r).
Proof.
  intros Hse Hs He Hwf. unfold conflictingBookings. rewrite Hs, He.
  eexists. split; [reflexivity|]. intros k.
  rewrite list_elem_of_fmap. split.
  - intros ([k' r] & -> & Hin). apply list_elem_of_filter in Hin as [Hc Hin].
    apply elem_of_map_to_list in Hin. exists r.
    destruct Hc as (Hfid & Hd & Hst & Hcl). simpl in *.
    split; [exact Hin|]. split; [exact Hfid|]. split; [exact Hd|]. split.
    + apply active_iff. rewrite !elem_of_cons, elem_of_nil in Hst. tauto.
    + apply conflict_clause_overlaps; [exact Hse|by apply (Hwf k')|exact Hcl].
  - intros (r & Hk & Hfid & Hd & Hact & Hov). exists (k, r).
    split; [done|]. apply list_elem_of_filter. split.
    + unfold conflicting. simpl.
      split; [exact Hfid|]. split; [exact Hd|]. split.
      * by apply active_conflict_status.
      * by apply overlaps_conflict_clause.
    + by apply elem_of_map_to_list.
Qed.

(** A stored row that matches the conflict query makes [createBooking]
    answer 409. *)
Lemma createBooking_conflicting env req db f s e k r :
  facilities db !! rq_facility_id (body req) = Some f →
  is_active f = true →
  js_lt (rq_start_time (body req)) (operating_hours_start f) = false →
  js_gt (rq_end_time (body req)) (operating_hours_end f) = false →
  time_of_string (rq_start_time (body req)) = Some s →
  time_of_string (rq_end_time (body req)) = Some e →
  facility_bookings db !! k = Some r →
  conflicting (rq_facility_id (body req)) (rq_booking_date (body req)) s e
    (k, r) →
  createBooking env req db
  = (json_error 409 "Time slot is already booked or pending approval", db).
Proof.
  intros Hf Hact Hlo Hhi Hs He Hk Hc.
  unfold createBooking. rewrite facility_by_id, Hf, Hact.
  cbn [single fulfilled error data]. rewrite Hlo, Hhi.
  unfold conflictingBookings. rewrite Hs, He.
  cbn [fulfilled error data orb].
  destruct (filter _ _) as [|x l] eqn:Hfilter; [|done].
  exfalso. pose proof (proj1 (no_conflict_iff _ _ _ _ _) Hfilter) as Hno.
  by apply (Hno k r Hk).
Qed.

(** ** Claims *)

(** C1 fails as stated under the concurrent creation it names.  Alice
    asks for the court from 10:00 to 12:00 and Bob from 11:00 to 13:00;
    both conflict queries are answered on the empty ledger before either
    insert is sent.  Both requests are answered 201 and the ledger then
    holds two approved bookings of the court on one date that overlap.
    Served one after the other, the second is refused. *)
Lemma interleaved_double_booking :
  no_double_booking (facility_bookings Sample.empty_ledger)
  ∧ statusCode Sample.race.1.1 = 201
  ∧ statusCode Sample.race.1.2 = 201
  ∧ (start_time <$> facility_bookings Sample.race.2 !! "b1" = Some 36000
     ∧ end_time <$> facility_bookings Sample.race.2 !! "b1" = Some 43200
     ∧ status <$> facility_bookings Sample.race.2 !! "b1" = Some approved)
  ∧ (start_time <$> facility_bookings Sample.race.2 !! "b2" = Some 39600
     ∧ end_time <$> facility_bookings Sample.race.2 !! "b2" = Some 46800
     ∧ status <$> facility_bookings Sample.race.2 !! "b2" = Some approved)
  ∧ ¬ no_double_booking (facility_bookings Sample.race.2)
  ∧ statusCode Sample.no_race.1 = 409.
Proof.
  split.
  { intros i j bi bj _ Hi. simpl in Hi. by rewrite lookup_empty in Hi. }
  split; [vm_compute; reflexivity|]. split; [vm_compute; reflexivity|].
  split; [vm_compute; by split_and!|]. split; [vm_compute; by split_and!|].
  split; [|vm_compute; reflexivity].
  intros Hinv.
  apply (Hinv "b1" "b2"
           {| facility_id := "court"; user_id := "alice";
              booking_date := 20000; start_time := 36000;
              end_time := 43200; status := approved; purpose := None;
              notes := None; admin_notes := None;
              approved_by := Some "alice"; approved_at := Some 1000;
              created_at := 1001; updated_at := 1001 |}
           {| facility_id := "court"; user_id := "bob";
              booking_date := 20000; start_time := 39600;
              end_time := 46800; status := approved; purpose := None;
              notes := None; admin_notes := None;
              approved_by := Some "bob"; approved_at := Some 2000;
              created_at := 2001; updated_at := 2001 |});
    try (vm_compute; reflexivity).
  - discriminate.
  - apply active_iff. by right.
  - apply active_iff. by right.
  - unfold overlaps. simpl. lia.
Qed.

(** C1, amended.  Starting from a ledger in which no two distinct
    pending or approved bookings of one facility and date overlap, every
    ledger reached by any sequence of createBooking, approveOrReject and
    cancelBooking requests, each completed before the next begins, has
    the same property. *)
Theorem run_no_double_booking ops db :
  no_double_booking (facility_bookings db) →
  no_double_booking (facility_bookings (run ops db)).
Proof.
  revert db. induction ops as [|op ops IH]; intros db Hinv; [done|].
  rewrite run_cons. apply IH.
  apply (ledger_step_no_double_booking (facility_bookings db));
    [apply step_ledger|exact Hinv].
Qed.

Lemma run_no_double_booking_witness :
  no_double_booking (facility_bookings Sample.two_bookings)
  ∧ no_double_booking
      (facility_bookings (run Sample.busy_day Sample.two_bookings))
  ∧ (λ b, (facility_id b, start_time b, end_time b, status b))
    <$> facility_bookings (run Sample.busy_day Sample.two_bookings) !! "b1"
    = Some ("court", 36000, 43200, approved)
  ∧ (λ b, (facility_id b, start_time b, end_time b, status b))
    <$> facility_bookings (run Sample.busy_day Sample.two_bookings) !! "b3"
    = Some ("court", 43200, 46800, approved)
  ∧ facility_bookings (run Sample.busy_day Sample.two_bookings) !! "b4" = None
  ∧ (λ b, (facility_id b, start_time b, end_time b, status b))
    <$> facility_bookings (run Sample.busy_day Sample.two_bookings) !! "b2"
    = Some ("hall", 32400, 36000, approved)
  ∧ (λ b, (facility_id b, start_time b, end_time b, status b))
    <$> facility_bookings (run Sample.busy_day Sample.two_bookings) !! "b5"
    = Some ("hall", 36000, 39600, pending)
  ∧ (λ b, (facility_id b, start_time b, end_time b, status b))
    <$> facility_bookings (run Sample.busy_day Sample.two_bookings) !! "b7"
    = Some ("court", 46800, 50400, cancelled).
Proof.
  assert (no_double_booking (facility_bookings Sample.two_bookings)) as Hinv.
  { assert (map_Forall
              (λ i bi,
                 map_Forall
                   (λ j bj,
                      i ≠ j →
                      facility_id bi = facility_id bj →
                      booking_date bi = booking_date bj →
                      active bi → active bj →
                      ¬ overlaps (start_time bi) (end_time bi)
                          (start_time bj) (end_time bj))
                   (facility_bookings Sample.two_bookings))
              (facility_bookings Sample.two_bookings)) as Hall.
    { refine (bool_decide_unpack _ _). vm_compute. exact I. }
    intros i j bi bj Hij Hi Hj. exact (Hall i bi Hi j bj Hj Hij). }
  split; [exact Hinv|].
  split; [exact (run_no_double_booking Sample.busy_day Sample.two_bookings
                   Hinv)|].
  vm_compute. repeat split.
Defined.

(** C2.  For requested times [s1 < e1]: against a stored interval
    [s2 < e2] the three-disjunct clause of the conflict query holds
    exactly when the two half-open intervals overlap ([s1 < e2] and
    [s2 < e1]), and intervals that touch at an endpoint do not conflict;
    on any ledger whose bookings start before they end, the query
    returns exactly the pending and approved bookings of the facility
    and date that overlap the requested interval.  And for two requests
    for one facility and date, each of which the ledger accepts: once the
    first is created, the second is answered 409 and not stored if the
    two intervals overlap, and is created as well if one ends no later
    than the other starts, the ledger then holding both bookings with
    the times asked for. *)
Theorem conflict_clause_half_open env1 env2 req1 req2 db s1 e1 s2 e2 :
  s1 < e1 → s2 < e2 →
  time_of_string (rq_start_time (body req1)) = Some s1 →
  time_of_string (rq_end_time (body req1)) = Some e1 →
  time_of_string (rq_start_time (body req2)) = Some s2 →
  time_of_string (rq_end_time (body req2)) = Some e2 →
  (conflict_clause s1 e1 s2 e2 ↔ overlaps s1 e1 s2 e2)
  ∧ (e1 <= s2 →
     ¬ conflict_clause s1 e1 s2 e2 ∧ ¬ conflict_clause s2 e2 s1 e1)
  ∧ (∀ fid d (tbl : gmap uuid FacilityBooking),
       (∀ k r, tbl !! k = Some r → start_time r < end_time r) →
       ∃ l,
         conflictingBookings fid d (rq_start_time (body req1))
           (rq_end_time (body req1)) tbl = fulfilled l
         ∧ ∀ k, k ∈ l
                ↔ ∃ r, tbl !! k = Some r
                       ∧ facility_id r = fid ∧ booking_date r = d
                       ∧ active r
                       ∧ overlaps s1 e1 (start_time r) (end_time r))
  ∧ (rq_facility_id (body req2) = rq_facility_id (body req1) →
     rq_booking_date (body req2) = rq_booking_date (body req1) →
     new_uuid env1 ≠ new_uuid env2 →
     statusCode (post_bookings env1 req1 db).1 = 201 →
     statusCode (post_bookings env2 req2 db).1 = 201 →
     (overlaps s1 e1 s2 e2 →
      post_bookings env2 req2 (step db (CreateBooking env1 req1))
      = (json_error 409 "Time slot is already booked or pending approval",
         step db (CreateBooking env1 req1)))
     ∧ (e1 <= s2 ∨ e2 <= s1 →
        statusCode
          (post_bookings env2 req2 (step db (CreateBooking env1 req1))).1
        = 201
        ∧ ∃ b1 b2,
            facility_bookings
              (run [CreateBooking env1 req1; CreateBooking env2 req2] db)
              !! new_uuid env1 = Some b1
            ∧ facility_bookings
                (run [CreateBooking env1 req1; CreateBooking env2 req2] db)
                !! new_uuid env2 = Some b2
            ∧ start_time b1 = s1 ∧ end_time b1 = e1
            ∧ start_time b2 = s2 ∧ end_time b2 = e2
            ∧ facility_id b2 = facility_id b1
            ∧ booking_date b2 = booking_date b1
            ∧ active b1 ∧ active b2)).
Proof.
  intros H1 H2 Hs1 He1 Hs2 He2. split_and!.
  - split; [by apply conflict_clause_overlaps|apply overlaps_conflict_clause].
  - unfold conflict_clause. lia.
  - intros fid d tbl Hwf.
    exact (conflictingBookings_overlaps fid d _ _ s1 e1 tbl H1 Hs1 He1 Hwf).
  - intros Hfid Hdate Hkeys Hfirst Hsecond.
    destruct (post_bookings_cases env1 req1 db)
      as [(f1 & s & e & Hb1 & Heq1)|[_ ?]]; [|done].
    cbn [step run foldl]. rewrite Heq1.
    rewrite (createBooking_bookable env1 req1 db f1 s e Hb1).
    cbn [fst snd].
    revert Hsecond. unfold post_bookings, validateRequest.
    destruct (createBookingSchema env2 (body req2)); [|done].
    intros Hsecond.
    apply (proj1 (createBooking_201 env2 req2 db)) in Hsecond
      as (f2 & s' & e' & Hb2).
    destruct Hb1 as (Hf1 & _ & _ & _ & Hs & He & _ & Hnew1).
    destruct Hb2 as (Hf & Hact & Hlo & Hhi & Hs' & He' & Hfree & Hnew2).
    assert (s = s1) as -> by congruence. assert (e = e1) as -> by congruence.
    assert (s' = s2) as -> by congruence.
    assert (e' = e2) as -> by congruence.
    split.
    + intros Hov.
      apply (createBooking_conflicting env2 req2 _ f2 s2 e2 (new_uuid env1)
               (created env1 req1 f1 s1 e1)); try done.
      * simpl. by rewrite lookup_insert_eq.
      * unfold conflicting, created. simpl.
        split; [by rewrite Hfid|]. split; [by rewrite Hdate|]. split.
        -- destruct (requires_approval f1); rewrite !elem_of_cons; auto.
        -- apply overlaps_conflict_clause, overlaps_sym. exact Hov.
    + intros Hapart.
      assert (bookable env2 req2
                (with_bookings db
                   (<[new_uuid env1 := created env1 req1 f1 s1 e1]>
                      (facility_bookings db))) f2 s2 e2) as Hb2.
      { unfold bookable. simpl.
        split; [exact Hf|]. split; [exact Hact|]. split; [exact Hlo|].
        split; [exact Hhi|]. split; [exact Hs'|]. split; [exact He'|]. split.
        - intros k r Hk. destruct (decide (k = new_uuid env1)) as [->|Hne].
          + rewrite lookup_insert_eq in Hk. simplify_eq.
            unfold conflicting, created, conflict_clause. simpl. lia.
          + rewrite lookup_insert_ne in Hk by done. by apply Hfree.
        - by rewrite lookup_insert_ne. }
      rewrite (createBooking_bookable env2 req2 _ f2 s2 e2 Hb2).
      cbn [fst snd statusCode]. split; [reflexivity|].
      exists (created env1 req1 f1 s1 e1), (created env2 req2 f2 s2 e2).
      simpl. rewrite lookup_insert_ne by done.
      rewrite !lookup_insert_eq.
      split; [reflexivity|]. split; [reflexivity|].
      split; [reflexivity|]. split; [reflexivity|].
      split; [reflexivity|]. split; [reflexivity|].
      split; [exact Hfid|]. split; [exact Hdate|].
      split; apply active_iff; unfold created; simpl.
      * destruct (requires_approval f1); auto.
      * destruct (requires_approval f2); auto.
Qed.

Lemma conflict_clause_half_open_witness :
  (conflict_clause 36000 43200 43200 46800 ↔ overlaps 36000 43200 43200 46800)
  ∧ ¬ conflict_clause 36000 43200 43200 46800
  ∧ (∃ l, conflictingBookings "court" 20000 "10:00" "12:00"
            (facility_bookings Sample.two_bookings) = fulfilled l
          ∧ "b1" ∈ l ∧ "b2" ∉ l)
  ∧ statusCode
      (post_bookings (Sample.at_ 2 "b2")
         (Sample.book Sample.bob "court" "court" "12:00" "13:00")
         (step Sample.empty_ledger
            (CreateBooking (Sample.at_ 1 "b1")
               (Sample.book Sample.alice "court" "court" "10:00" "12:00")))).1
    = 201
  ∧ (∃ b1 b2,
       facility_bookings
         (run [CreateBooking (Sample.at_ 1 "b1")
                 (Sample.book Sample.alice "court" "court" "10:00" "12:00");
               CreateBooking (Sample.at_ 2 "b2")
                 (Sample.book Sample.bob "court" "court" "12:00" "13:00")]
              Sample.empty_ledger) !! "b1" = Some b1
       ∧ facility_bookings
           (run [CreateBooking (Sample.at_ 1 "b1")
                   (Sample.book Sample.alice "court" "court" "10:00" "12:00");
                 CreateBooking (Sample.at_ 2 "b2")
                   (Sample.book Sample.bob "court" "court" "12:00" "13:00")]
                Sample.empty_ledger) !! "b2" = Some b2
       ∧ end_time b1 = 43200 ∧ start_time b2 = 43200)
  ∧ post_bookings (Sample.at_ 2 "b2")
      (Sample.book Sample.bob "court" "court" "11:00" "13:00")
      (step Sample.empty_ledger
         (CreateBooking (Sample.at_ 1 "b1")
            (Sample.book Sample.alice "court" "court" "10:00" "12:00")))
    = (json_error 409 "Time slot is already booked or pending approval",
       step Sample.empty_ledger
         (CreateBooking (Sample.at_ 1 "b1")
            (Sample.book Sample.alice "court" "court" "10:00" "12:00"))).
Proof.
  destruct (conflict_clause_half_open (Sample.at_ 1 "b1") (Sample.at_ 2 "b2")
              (Sample.book Sample.alice "court" "court" "10:00" "12:00")
              (Sample.book Sample.bob "court" "court" "12:00" "13:00")
              Sample.empty_ledger 36000 43200 43200 46800)
    as (Hiff & Htouch & Hquery & Hboth);
    [lia|lia|reflexivity|reflexivity|reflexivity|reflexivity|].
  split; [exact Hiff|]. split; [apply Htouch; lia|].
  split.
  { destruct (Hquery "court" 20000 (facility_bookings Sample.two_bookings))
      as (l & Hl & Hin).
    - intros k r Hk.
      assert (map_Forall (λ _ r, start_time r < end_time r)
                (facility_bookings Sample.two_bookings)) as Hall.
      { refine (bool_decide_unpack _ _). vm_compute. exact I. }
      exact (Hall k r Hk).
    - exists l. split; [exact Hl|]. split.
      + apply Hin.
        exists {| facility_id := "court"; user_id := "alice";
                  booking_date := 20000; start_time := 36000;
                  end_time := 43200; status := approved; purpose := None;
                  notes := None; admin_notes := None;
                  approved_by := Some "alice"; approved_at := Some 1000;
                  created_at := 1001; updated_at := 1001 |}.
        split; [vm_compute; reflexivity|]. split; [reflexivity|].
        split; [reflexivity|]. split; [apply active_iff; by right|].
        unfold overlaps. simpl. lia.
      + intros Hb2. apply Hin in Hb2 as (r & Hr & Hfid & _).
        vm_compute in Hr. injection Hr as Hr. subst r. discriminate Hfid. }
  destruct Hboth as [_ Hapart];
    [reflexivity|reflexivity|discriminate
    |vm_compute; reflexivity|vm_compute; reflexivity|].
  destruct Hapart as (H201 & b1 & b2 & Hb1 & Hb2 & _ & He1 & Hs2 & _);
    [left; lia|].
  split; [exact H201|]. split.
  { exists b1, b2.
    split; [exact Hb1|]. split; [exact Hb2|]. split; [exact He1|exact Hs2]. }
  destruct (conflict_clause_half_open (Sample.at_ 1 "b1") (Sample.at_ 2 "b2")
              (Sample.book Sample.alice "court" "court" "10:00" "12:00")
              (Sample.book Sample.bob "court" "court" "11:00" "13:00")
              Sample.empty_ledger 36000 43200 39600 46800)
    as (_ & _ & _ & Hsecond);
    [lia|lia|reflexivity|reflexivity|reflexivity|reflexivity|].
  destruct Hsecond as [Hrefused _];
    [reflexivity|reflexivity|discriminate
    |vm_compute; reflexivity|vm_compute; reflexivity|].
  apply Hrefused. unfold overlaps. lia.
Defined.




(** [approveBooking] never answers 404: when the conditional update
    matches no row, the error reported by [.single()] is answered with
    500 before the 404 branch is reached.  The store is left as it was. *)
Lemma approveBooking_not_pending env req db :
  role (user req) = admin →
  (∀ b, facility_bookings db !! params_id req = Some b → status b ≠ pending) →
  approveBooking env req db
  = (json_error 500 "Failed to update booking status", db).
Proof.
  intros Hadmin Hnp. rewrite approveBooking_eq.
  rewrite decide_False by (by intros ?).
  destruct (facility_bookings db !! params_id req) as [b|]; [|done].
  rewrite decide_False; [done|]. by apply Hnp.
Qed.

Lemma approveBooking_never_404 env req db :
  statusCode (approveBooking env req db).1 ≠ 404.
Proof.
  rewrite approveBooking_eq. repeat (case_decide || case_match); done.
Qed.

(** C4 (evaluation at the failing input).  The administrator approves the
    pending hall booking: 200.  The same request once more: the booking is
    no longer pending, the ledger is unchanged, and the answer is 500
    'Failed to update booking status', not 404. *)
Theorem approveBooking_second_attempt :
  statusCode Sample.first_approval.1 = 200
  ∧ status <$> facility_bookings Sample.first_approval.2 !! "b2"
    = Some approved
  ∧ Sample.second_approval
    = (json_error 500 "Failed to update booking status",
       Sample.first_approval.2)
  ∧ statusCode Sample.second_approval.1 ≠ 404.
Proof. vm_compute. split_and!; congruence. Qed.

(** ** Status changes of a stored booking *)

Lemma transition_cases st st' :
  transition st st'
  → (st = pending ∧ (st' = approved ∨ st' = rejected))
    ∨ (st ≠ cancelled ∧ st' = cancelled).
Proof.
  intros [st0 Hst|st0 Hst]; [left|by right].
  rewrite !elem_of_cons, elem_of_nil in Hst. tauto.
Qed.

Lemma ledger_step_lookup tbl tbl' k b :
  ledger_step tbl tbl' → tbl !! k = Some b →
  ∃ b', tbl' !! k = Some b'
        ∧ (status b' = status b ∨ transition (status b) (status b')).
Proof.
  intros [|k0 b0 Hk0 _ _ _|k0 b0 b0' Hk0 _ _ _ _ _ Ht] Hk.
  - exists b. auto.
  - exists b. rewrite lookup_insert_ne by congruence. auto.
  - destruct (decide (k0 = k)) as [->|Hne].
    + exists b0'. rewrite lookup_insert_eq. simplify_eq. auto.
    + exists b. rewrite lookup_insert_ne by done. auto.
Qed.

(** A request other than a cancellation leaves every booking that is no
    longer pending exactly as it was. *)
Lemma step_decided_frame db op k b :
  ¬ is_cancel op →
  facility_bookings db !! k = Some b → status b ≠ pending →
  facility_bookings (step db op) !! k = Some b.
Proof.
  intros Hop Hk Hst. destruct op as [env req|env req|env req]; simpl.
  - destruct (post_bookings_cases env req db) as [(f & s & e & Hb & ->)|[-> _]];
      [|done].
    rewrite (createBooking_bookable _ _ _ f s e) by done. simpl.
    destruct Hb as (_ & _ & _ & _ & _ & _ & _ & Hnew).
    rewrite lookup_insert_ne; [done|congruence].
  - unfold put_approve, requireAdmin, validateRequest.
    case_decide; [done|]. destruct (approveBookingSchema _); [|done].
    rewrite approveBooking_eq. case_decide; [done|].
    destruct (facility_bookings db !! params_id req) as [b0|] eqn:Hb0;
      [|done].
    case_decide as Hp; [|done]. simpl.
    rewrite lookup_insert_ne; [done|]. intros <-. congruence.
  - by destruct Hop.
Qed.

(** C5 fails as stated: a rejected booking is not terminal.  Alice's
    rejected hall request, still in the future, is cancelled by her
    cancelBooking request. *)
Lemma rejected_then_cancelled :
  status <$> facility_bookings Sample.hall_rejected !! "b2" = Some rejected
  ∧ statusCode
      (put_cancel (Sample.at_ 4 "") (Sample.on Sample.alice "b2")
         Sample.hall_rejected).1 = 200
  ∧ status <$>
      facility_bookings
        (step Sample.hall_rejected
           (CancelBooking (Sample.at_ 4 "") (Sample.on Sample.alice "b2")))
      !! "b2" = Some cancelled.
Proof. vm_compute. split_and!; congruence. Qed.

(** C5, amended.  After any sequence of requests a stored booking is
    still stored; if it was cancelled it is still cancelled; if it was
    rejected it is rejected or cancelled, and still rejected when no
    request of the sequence was a cancellation; and if it was not pending
    it is not pending. *)
Theorem run_terminal_statuses ops db k b :
  facility_bookings db !! k = Some b →
  ∃ b', facility_bookings (run ops db) !! k = Some b'
        ∧ (status b = cancelled → status b' = cancelled)
        ∧ (status b = rejected →
           status b' = rejected ∨ status b' = cancelled)
        ∧ (status b = rejected → Forall (λ op, ¬ is_cancel op) ops →
           status b' = rejected)
        ∧ (status b ≠ pending → status b' ≠ pending).
Proof.
  revert db b. induction ops as [|op ops IH]; intros db b Hk.
  { exists b. split_and!; auto. }
  rewrite run_cons.
  destruct (ledger_step_lookup _ _ k b (step_ledger db op) Hk)
    as (b1 & Hk1 & Hst1).
  destruct (IH _ _ Hk1) as (b' & Hk' & Hc & Hr & Hrn & Hp).
  exists b'. split; [done|].
  assert (status b1 = status b
          ∨ (status b = pending ∧ (status b1 = approved ∨ status b1 = rejected))
          ∨ (status b ≠ cancelled ∧ status b1 = cancelled)) as Hcases.
  { destruct Hst1 as [?|Ht]; [by left|right]. by apply transition_cases. }
  split_and!.
  - intros Hb. apply Hc. destruct Hcases as [?|[[? _]|[? _]]]; congruence.
  - intros Hb. destruct Hcases as [Heq|[[? _]|[_ Hb1]]]; [|congruence|].
    + apply Hr. congruence.
    + right. by apply Hc.
  - intros Hb Hops. apply Forall_cons in Hops as [Hop Hops].
    assert (facility_bookings (step db op) !! k = Some b) as Hframe
      by (apply step_decided_frame; [done|done|congruence]).
    simplify_eq. by apply Hrn.
  - intros Hb. apply Hp.
    destruct Hcases as [?|[[? _]|[_ ?]]]; congruence.
Qed.

Lemma run_terminal_statuses_witness :
  ∃ b', facility_bookings
          (run [CancelBooking (Sample.at_ 4 "") (Sample.on Sample.alice "b2");
                ApproveOrReject (Sample.at_ 5 "")
                  (Sample.decide_ Sample.root "b2" approved)]
               Sample.hall_rejected) !! "b2" = Some b'
        ∧ status b' ≠ pending.
Proof.
  destruct (run_terminal_statuses
              [CancelBooking (Sample.at_ 4 "") (Sample.on Sample.alice "b2");
               ApproveOrReject (Sample.at_ 5 "")
                 (Sample.decide_ Sample.root "b2" approved)]
              Sample.hall_rejected "b2"
              {| facility_id := "hall"; user_id := "alice";
                 booking_date := 20000; start_time := 32400;
                 end_time := 36000; status := rejected; purpose := None;
                 notes := None; admin_notes := None;
                 approved_by := Some "root"; approved_at := Some 3000;
                 created_at := 2001; updated_at := 3001 |})
    as (b' & Hk & _ & _ & _ & Hp); [vm_compute; reflexivity|].
  exists b'. split; [exact Hk|]. apply Hp. discriminate.
Defined.

(** C6 fails as stated: the approval time of an auto-approved booking is
    not its creation timestamp.  The handler sends its own clock reading
    as [approved_at]; [created_at] is filled by the store from the
    store's clock.  Alice's request for the court, handled at server time
    1000 and inserted at store time 1001. *)
Lemma approved_at_not_created_at :
  statusCode
    (post_bookings (Sample.at_ 1 "b1")
       (Sample.book Sample.alice "court" "court" "10:00" "12:00")
       Sample.empty_ledger).1 = 201
  ∧ ∃ b,
      facility_bookings
        (post_bookings (Sample.at_ 1 "b1")
           (Sample.book Sample.alice "court" "court" "10:00" "12:00")
           Sample.empty_ledger).2 !! "b1" = Some b
      ∧ status b = approved
      ∧ approved_by b = Some "alice"
      ∧ approved_at b = Some 1000
      ∧ created_at b = 1001
      ∧ approved_at b ≠ Some (created_at b).
Proof.
  split; [vm_compute; reflexivity|].
  eexists. split; [vm_compute; reflexivity|]. simpl.
  split_and!; [reflexivity..|discriminate].
Qed.

(** C6, amended.  When the route answers 201, the row returned and
    stored under the generated key belongs to the creating user and
    carries the store's clock reading as creation time; it is pending,
    with no approver and no approval time, if the facility requires
    approval; otherwise it is approved, with the creating user as
    approver and the server's clock reading of the request as approval
    time. *)
Theorem createBooking_initial_status env req db :
  statusCode (post_bookings env req db).1 = 201 →
  ∃ f b,
    facilities db !! rq_facility_id (body req) = Some f
    ∧ res_data (payload (post_bookings env req db).1) = Some (new_uuid env, b)
    ∧ facility_bookings (post_bookings env req db).2 !! new_uuid env = Some b
    ∧ user_id b = u_id (user req)
    ∧ created_at b = db_now env
    ∧ (requires_approval f = true →
       status b = pending ∧ approved_by b = None ∧ approved_at b = None)
    ∧ (requires_approval f = false →
       status b = approved
       ∧ approved_by b = Some (u_id (user req))
       ∧ approved_at b = Some (js_now env)).
Proof.
  intros H201.
  destruct (post_bookings_cases env req db)
    as [(f & s & e & Hb & Heq)|[_ ?]]; [|done].
  rewrite Heq, (createBooking_bookable _ _ _ f s e) by done.
  exists f, (created env req f s e). simpl.
  destruct Hb as (Hf & _). rewrite lookup_insert_eq.
  unfold created. split_and!; try done; by intros ->.
Qed.

Lemma createBooking_initial_status_witness :
  (∃ f b,
     (facilities Sample.empty_ledger !! "hall" = Some f
      ∧ requires_approval f = true)
     ∧ res_data
         (payload
            (post_bookings (Sample.at_ 1 "b1")
               (Sample.book Sample.alice "hall" "hall" "09:00" "10:00")
               Sample.empty_ledger).1) = Some ("b1", b)
     ∧ status b = pending ∧ approved_by b = None ∧ approved_at b = None
     ∧ created_at b = 1001)
  ∧ (∃ f b,
       (facilities Sample.empty_ledger !! "court" = Some f
        ∧ requires_approval f = false)
       ∧ res_data
           (payload
              (post_bookings (Sample.at_ 1 "b1")
                 (Sample.book Sample.alice "court" "court" "10:00" "12:00")
                 Sample.empty_ledger).1) = Some ("b1", b)
       ∧ status b = approved ∧ approved_by b = Some "alice"
       ∧ approved_at b = Some 1000
       ∧ created_at b = 1001).
Proof.
  split.
  - destruct (createBooking_initial_status (Sample.at_ 1 "b1")
                (Sample.book Sample.alice "hall" "hall" "09:00" "10:00")
                Sample.empty_ledger)
      as (f & b & Hf & Hdata & _ & _ & Hcreated & Hpending & _);
      [vm_compute; reflexivity|].
    exists f, b.
    assert (requires_approval f = true) as Hreq.
    { vm_compute in Hf. injection Hf as <-. reflexivity. }
    split; [by split|]. split; [exact Hdata|].
    destruct (Hpending Hreq) as (Hst & Hby & Hat).
    split; [exact Hst|]. split; [exact Hby|]. split; [exact Hat|].
    exact Hcreated.
  - destruct (createBooking_initial_status (Sample.at_ 1 "b1")
                (Sample.book Sample.alice "court" "court" "10:00" "12:00")
                Sample.empty_ledger)
      as (f & b & Hf & Hdata & _ & _ & Hcreated & _ & Happroved);
      [vm_compute; reflexivity|].
    exists f, b.
    assert (requires_approval f = false) as Hreq.
    { vm_compute in Hf. injection Hf as <-. reflexivity. }
    split; [by split|]. split; [exact Hdata|].
    destruct (Happroved Hreq) as (Hst & Hby & Hat).
    split; [exact Hst|]. split; [exact Hby|]. split; [exact Hat|].
    exact Hcreated.
Defined.

(** ** The listing *)

Lemma forall_Some {A} (x : A) (P : A → Prop) :
  (∀ y, Some x = Some y → P y) ↔ P x.
Proof. split; [auto|]. by intros HP y [= <-]. Qed.

Lemma forall_None {A} (P : A → Prop) :
  (∀ y, @None A = Some y → P y) ↔ True.
Proof. done. Qed.

Lemma visible_rows_elem u fid st d (tbl : gmap uuid FacilityBooking) k b :
  (k, b) ∈ visible_rows u fid st d tbl
  ↔ tbl !! k = Some b
    ∧ facility_id b = fid
    ∧ (role u ≠ admin → status b = approved ∨ user_id b = u_id u)
    ∧ (∀ s, st = Some s → status b = s)
    ∧ (∀ dt, d = Some dt → booking_date b = dt).
Proof.
  unfold visible_rows, from.
  destruct d as [dt|], st as [s|], (decide (role u ≠ admin)) as [Hr|Hr];
    rewrite ?list_elem_of_filter, elem_of_map_to_list,
      ?forall_Some, ?forall_None; simpl; tauto.
Qed.

Lemma range_items {A} lo hi (rows : list A) p x :
  data (range lo hi rows) = Some p → x ∈ p.1 → x ∈ rows.
Proof.
  unfold range. case_match; [|done]. intros [= <-]. simpl.
  intros Hx. by apply subseteq_take, subseteq_drop in Hx.
Qed.

(** The page a successful listing returns is cut from the rows
    [visible_rows] selects, for the status filter the store read. *)
Lemma getFacilityBookings_items req db p k b :
  res_data (payload (getFacilityBookings req db)) = Some p →
  (k, b) ∈ items p →
  ∃ st, (k, b) ∈ visible_rows (user req) (params_id req) st
                   (q_date (query req)) (facility_bookings db).
Proof.
  unfold getFacilityBookings.
  set (stq := match q_status (query req) with
              | None | Some EmptyString => Some None
              | Some s => Some <$> status_of_string s
              end).
  destruct stq as [st|]; [|done].
  destruct (range _ _ _) as [[[rows n]|] []] eqn:Hrange; simpl; try done.
  - intros [= <-]. simpl. intros Hin. exists st.
    assert ((k, b) ∈ merge_sort booking_order
              (visible_rows (user req) (params_id req) st
                 (q_date (query req)) (facility_bookings db))) as Hs.
    { eapply (range_items _ _ _ (rows, n)); [by rewrite Hrange|done]. }
    by rewrite merge_sort_Permutation in Hs.
  - intros [= <-]. simpl. intros Hin. by apply elem_of_nil in Hin.
Qed.



(** ** Cancellation *)

(** C8.  [cancelBooking] answers 404 'Booking not found' when no booking
    has the given id; otherwise 403 'Access denied' unless the actor is
    an administrator or the owner; otherwise 400 'Booking is already
    cancelled' when the status is cancelled; otherwise 400 'Cannot cancel
    past bookings' when the booking's date and start time lie strictly
    before now; otherwise 200.  Each failure leaves the store as it was.
    In particular a pending or approved booking that has not started is
    cancelled on its owner's request. *)
Theorem cancelBooking_checks env req db :
  (facility_bookings db !! params_id req = None →
   cancelBooking env req db = (json_error 404 "Booking not found", db))
  ∧ (∀ b, facility_bookings db !! params_id req = Some b →
     (¬ may_cancel (user req) b →
      cancelBooking env req db = (json_error 403 "Access denied", db))
     ∧ (may_cancel (user req) b → status b = cancelled →
        cancelBooking env req db
        = (json_error 400 "Booking is already cancelled", db))
     ∧ (may_cancel (user req) b → status b ≠ cancelled → started env b →
        cancelBooking env req db
        = (json_error 400 "Cannot cancel past bookings", db))
     ∧ (may_cancel (user req) b → status b ≠ cancelled → ¬ started env b →
        statusCode (cancelBooking env req db).1 = 200
        ∧ status <$> facility_bookings (cancelBooking env req db).2
                       !! params_id req = Some cancelled)
     ∧ (user_id b = u_id (user req) → status b ∈ [pending; approved] →
        ¬ started env b →
        statusCode (cancelBooking env req db).1 = 200
        ∧ status <$> facility_bookings (cancelBooking env req db).2
                       !! params_id req = Some cancelled)).
Proof.
  rewrite cancelBooking_eq. unfold may_cancel, started. split.
  - by intros ->.
  - intros b ->. split_and!.
    + intros Hna. rewrite decide_True; [done|]. split; intros ?; tauto.
    + intros Hal Hc. rewrite decide_False by tauto.
      by rewrite decide_True.
    + intros Hal Hc Hpast. rewrite decide_False by tauto.
      rewrite decide_False by done.
      by rewrite (proj2 (Z.ltb_lt _ _) Hpast).
    + intros Hal Hc Hpast. rewrite decide_False by tauto.
      rewrite decide_False by done.
      rewrite (proj2 (Z.ltb_ge _ _)) by lia. simpl.
      by rewrite lookup_insert_eq.
    + intros Hown Hst Hpast. rewrite decide_False by tauto.
      rewrite decide_False
        by (intros Hc; rewrite Hc, !elem_of_cons, elem_of_nil in Hst;
            by destruct Hst as [?|[?|[]]]).
      rewrite (proj2 (Z.ltb_ge _ _)) by lia. simpl.
      by rewrite lookup_insert_eq.
Qed.

Lemma cancelBooking_checks_witness :
  cancelBooking (Sample.at_ 3 "") (Sample.on Sample.alice "b9")
    Sample.two_bookings
  = (json_error 404 "Booking not found", Sample.two_bookings)
  ∧ cancelBooking (Sample.at_ 3 "") (Sample.on Sample.bob "b1")
      Sample.two_bookings
    = (json_error 403 "Access denied", Sample.two_bookings)
  ∧ statusCode
      (cancelBooking (Sample.at_ 3 "") (Sample.on Sample.alice "b1")
         Sample.two_bookings).1 = 200
  ∧ status <$>
      facility_bookings
        (cancelBooking (Sample.at_ 3 "") (Sample.on Sample.alice "b1")
           Sample.two_bookings).2 !! "b1" = Some cancelled.
Proof.
  split_and!.
  - apply (cancelBooking_checks (Sample.at_ 3 "")
             (Sample.on Sample.alice "b9") Sample.two_bookings).
    vm_compute. reflexivity.
  - eapply (cancelBooking_checks (Sample.at_ 3 "")
              (Sample.on Sample.bob "b1") Sample.two_bookings);
      [vm_compute; reflexivity|].
    unfold may_cancel. simpl. intros [?|?]; discriminate.
  - eapply (cancelBooking_checks (Sample.at_ 3 "")
              (Sample.on Sample.alice "b1") Sample.two_bookings);
      [vm_compute; reflexivity|reflexivity
      |simpl; rewrite !elem_of_cons; auto
      |unfold started; simpl; vm_compute; discriminate].
  - eapply (cancelBooking_checks (Sample.at_ 3 "")
              (Sample.on Sample.alice "b1") Sample.two_bookings);
      [vm_compute; reflexivity|reflexivity
      |simpl; rewrite !elem_of_cons; auto
      |unfold started; simpl; vm_compute; discriminate].
Defined.

(** C9.  When [cancelBooking] answers 200, the booking under the given
    id has status cancelled and the same facility, owner, date, times,
    purpose, notes, admin notes, approver, approval time and creation
    time as before ([updated_at] is refreshed by the store's trigger);
    every other booking, and every facility, is as it was. *)
Theorem cancelBooking_frame env req db :
  statusCode (cancelBooking env req db).1 = 200 →
  ∃ b b',
    facility_bookings db !! params_id req = Some b
    ∧ facility_bookings (cancelBooking env req db).2 !! params_id req
      = Some b'
    ∧ status b' = cancelled
    ∧ facility_id b' = facility_id b
    ∧ user_id b' = user_id b
    ∧ booking_date b' = booking_date b
    ∧ start_time b' = start_time b
    ∧ end_time b' = end_time b
    ∧ purpose b' = purpose b
    ∧ notes b' = notes b
    ∧ admin_notes b' = admin_notes b
    ∧ approved_by b' = approved_by b
    ∧ approved_at b' = approved_at b
    ∧ created_at b' = created_at b
    ∧ updated_at b' = db_now env
    ∧ (∀ k, k ≠ params_id req →
         facility_bookings (cancelBooking env req db).2 !! k
         = facility_bookings db !! k)
    ∧ facilities (cancelBooking env req db).2 = facilities db.
Proof.
  rewrite cancelBooking_eq.
  destruct (facility_bookings db !! params_id req) as [b|] eqn:Hb; [|done].
  case_decide; [done|]. case_decide; [done|]. case_match; [done|].
  intros _. exists b, (update_updated_at_column env (set_cancelled b)).
  simpl. rewrite lookup_insert_eq. split_and!; try done.
  intros k Hk. by rewrite lookup_insert_ne.
Qed.

Lemma cancelBooking_frame_witness :
  ∃ b b',
    facility_bookings Sample.two_bookings !! "b1" = Some b
    ∧ facility_bookings
        (cancelBooking (Sample.at_ 3 "") (Sample.on Sample.alice "b1")
           Sample.two_bookings).2 !! "b1" = Some b'
    ∧ status b = approved ∧ status b' = cancelled
    ∧ approved_by b' = approved_by b ∧ approved_at b' = approved_at b
    ∧ facility_bookings
        (cancelBooking (Sample.at_ 3 "") (Sample.on Sample.alice "b1")
           Sample.two_bookings).2 !! "b2"
      = facility_bookings Sample.two_bookings !! "b2".
Proof.
  destruct (cancelBooking_frame (Sample.at_ 3 "")
              (Sample.on Sample.alice "b1") Sample.two_bookings)
    as (b & b' & Hb & Hb' & Hst & _ & _ & _ & _ & _ & _ & _ & _
        & Hby & Hat & _ & _ & Hothers & _);
    [vm_compute; reflexivity|].
  exists b, b'.
  split; [exact Hb|]. split; [exact Hb'|].
  split; [vm_compute in Hb; injection Hb as <-; reflexivity|].
  split; [exact Hst|]. split; [exact Hby|]. split; [exact Hat|].
  apply Hothers. discriminate.
Defined.

(** C10.  [POST /:id/bookings] reads the facility from the body only:
    two requests by the same user with the same body get the same answer
    and leave the same store, whatever their path ids (and query
    strings). *)
Theorem createBooking_ignores_path_id env req1 req2 db :
  user req1 = user req2 → body req1 = body req2 →
  post_bookings env req1 db = post_bookings env req2 db.
Proof.
  intros Hu Hb. unfold post_bookings, validateRequest, createBooking.
  by rewrite Hu, Hb.
Qed.

Lemma createBooking_ignores_path_id_witness :
  post_bookings (Sample.at_ 1 "b1")
    (Sample.book Sample.alice "court" "hall" "09:00" "10:00")
    Sample.empty_ledger
  = post_bookings (Sample.at_ 1 "b1")
      (Sample.book Sample.alice "hall" "hall" "09:00" "10:00")
      Sample.empty_ledger
  ∧ facility_id <$>
      facility_bookings
        (post_bookings (Sample.at_ 1 "b1")
           (Sample.book Sample.alice "court" "hall" "09:00" "10:00")
           Sample.empty_ledger).2 !! "b1" = Some "hall".
Proof.
  split; [|vm_compute; reflexivity].
  apply (createBooking_ignores_path_id (Sample.at_ 1 "b1")
           (Sample.book Sample.alice "court" "hall" "09:00" "10:00")
           (Sample.book Sample.alice "hall" "hall" "09:00" "10:00")
           Sample.empty_ledger); reflexivity.
Defined.

(** * Further properties of the booking workflow *)

(** ** Creation *)

(** X1.  A request whose times overlap (half-open) a stored pending or
    approved booking of the same facility and date is answered 409 and
    stores nothing. *)
Theorem createBooking_overlap_conflict env req db f s e k r :
  facilities db !! rq_facility_id (body req) = Some f →
  is_active f = true →
  outside_hours f (body req) = false →
  time_of_string (rq_start_time (body req)) = Some s →
  time_of_string (rq_end_time (body req)) = Some e →
  facility_bookings db !! k = Some r →
  facility_id r = rq_facility_id (body req) →
  booking_date r = rq_booking_date (body req) →
  active r →
  overlaps s e (start_time r) (end_time r) →
  createBooking env req db
  = (json_error 409 "Time slot is already booked or pending approval", db).
Proof.
  intros Hf Hact Hout Hs He Hk Hfac Hdate Hactive Hov.
  unfold createBooking. rewrite facility_by_id, Hf, Hact.
  cbn [single fulfilled error data]. unfold outside_hours in Hout.
  rewrite Hout. unfold conflictingBookings. rewrite Hs, He.
  cbn [fulfilled error data].
  destruct (filter _ _) as [|x l] eqn:Hfilter; [|done].
  exfalso. pose proof (proj1 (no_conflict_iff _ _ _ _ _) Hfilter) as Hno.
  apply (Hno k r Hk).
  unfold conflicting. simpl. split_and!; [done|done| |].
  - by apply active_conflict_status.
  - by apply overlaps_conflict_clause.
Qed.

Lemma createBooking_overlap_conflict_witness :
  createBooking (Sample.at_ 3 "b3")
    (Sample.book Sample.bob "court" "court" "11:00" "13:00")
    Sample.two_bookings
  = (json_error 409 "Time slot is already booked or pending approval",
     Sample.two_bookings).
Proof.
  apply (createBooking_overlap_conflict (Sample.at_ 3 "b3")
           (Sample.book Sample.bob "court" "court" "11:00" "13:00")
           Sample.two_bookings Sample.court 39600 46800 "b1"
           {| facility_id := "court"; user_id := "alice";
              booking_date := 20000; start_time := 36000;
              end_time := 43200; status := approved; purpose := None;
              notes := None; admin_notes := None;
              approved_by := Some "alice"; approved_at := Some 1000;
              created_at := 1001; updated_at := 1001 |});
    try (vm_compute; reflexivity).
  - unfold active. simpl. rewrite !elem_of_cons. auto.
  - unfold overlaps. simpl. lia.
Defined.

(** X2.  The route writes nothing unless it answers 201, and then it
    adds exactly one row, under a key that was free: no stored booking
    and no facility is changed. *)
Theorem post_bookings_atomic env req db :
  ((post_bookings env req db).2 = db
   ∧ statusCode (post_bookings env req db).1 ≠ 201)
  ∨ (statusCode (post_bookings env req db).1 = 201
     ∧ facility_bookings db !! new_uuid env = None
     ∧ facilities (post_bookings env req db).2 = facilities db
     ∧ ∃ b, facility_bookings (post_bookings env req db).2
            = <[new_uuid env := b]> (facility_bookings db)).
Proof.
  destruct (post_bookings_cases env req db)
    as [(f & s & e & Hb & ->)|?]; [right|by left].
  rewrite (createBooking_bookable _ _ _ f s e) by done. simpl.
  destruct Hb as (_ & _ & _ & _ & _ & _ & _ & Hnew). eauto.
Qed.

(** X3.  [createBooking] answers 404 exactly when no active facility has
    the id given in the body. *)
Theorem createBooking_not_found env req db :
  statusCode (createBooking env req db).1 = 404
  ↔ ¬ ∃ f, facilities db !! rq_facility_id (body req) = Some f
           ∧ is_active f = true.
Proof.
  unfold createBooking. rewrite facility_by_id.
  destruct (facilities db !! rq_facility_id (body req)) as [f|] eqn:Hf.
  - destruct (is_active f) eqn:Hact; simpl.
    + split; [|intros Hno; exfalso; apply Hno; eauto].
      intros H404. exfalso. revert H404.
      repeat (case_match; simpl; try done).
    + split; [|done]. intros _ (f' & [= <-] & ?). congruence.
  - simpl. split; [|done]. by intros _ (f' & ? & _).
Qed.

(** X4.  Once a request has been answered 201, the same body sent again
    is answered 409, whatever the clock and the generated key: the stored
    booking matches the third disjunct of the conflict query against
    itself. *)
Theorem createBooking_repeat_conflict env env' req req' db :
  statusCode (createBooking env req db).1 = 201 →
  body req' = body req →
  createBooking env' req' (createBooking env req db).2
  = (json_error 409 "Time slot is already booked or pending approval",
     (createBooking env req db).2).
Proof.
  intros (f & s & e & Hb)%createBooking_201 Hbody.
  rewrite (createBooking_bookable env req db f s e) by done. simpl.
  destruct Hb as (Hf & Hact & Hlo & Hhi & Hs & He & _ & _).
  unfold createBooking. rewrite Hbody.
  change (facilities (with_bookings db ?t)) with (facilities db).
  rewrite facility_by_id, Hf, Hact. cbn [single fulfilled error data].
  rewrite Hlo, Hhi. unfold conflictingBookings. rewrite Hs, He.
  cbn [fulfilled error data orb facility_bookings with_bookings].
  destruct (filter _ _) as [|x l] eqn:Hfilter; [|done].
  exfalso. pose proof (proj1 (no_conflict_iff _ _ _ _ _) Hfilter) as Hno.
  apply (Hno (new_uuid env) (created env req f s e)).
  { apply lookup_insert_eq. }
  unfold conflicting, created, conflict_clause. simpl. split_and!; try done.
  - destruct (requires_approval f); rewrite !elem_of_cons; auto.
  - lia.
Qed.

Lemma createBooking_repeat_conflict_witness :
  statusCode
    (createBooking (Sample.at_ 2 "b2")
       (Sample.book Sample.bob "hall" "court" "10:00" "12:00")
       (createBooking (Sample.at_ 1 "b1")
          (Sample.book Sample.alice "court" "court" "10:00" "12:00")
          Sample.empty_ledger).2).1 = 409.
Proof.
  rewrite (createBooking_repeat_conflict (Sample.at_ 1 "b1")
             (Sample.at_ 2 "b2")
             (Sample.book Sample.alice "court" "court" "10:00" "12:00")
             (Sample.book Sample.bob "hall" "court" "10:00" "12:00")
             Sample.empty_ledger);
    [reflexivity|vm_compute; reflexivity|reflexivity].
Defined.

(** ** Releasing a slot *)

(** A booking that is rewritten to a status outside pending/approved no
    longer stands in the way of a request that conflicts with no other
    stored booking. *)
Lemma bookable_after_release env req db f s e k b b' :
  facility_bookings db !! k = Some b →
  status b' ∉ [approved; pending] →
  facilities db !! rq_facility_id (body req) = Some f →
  is_active f = true →
  outside_hours f (body req) = false →
  time_of_string (rq_start_time (body req)) = Some s →
  time_of_string (rq_end_time (body req)) = Some e →
  (∀ j r, facility_bookings db !! j = Some r → j ≠ k →
          ¬ conflicting (rq_facility_id (body req))
              (rq_booking_date (body req)) s e (j, r)) →
  facility_bookings db !! new_uuid env = None →
  bookable env req (with_bookings db (<[k := b']> (facility_bookings db)))
    f s e.
Proof.
  intros Hk Hst Hf Hact Hout Hs He Hfree Hnew.
  apply orb_false_elim in Hout as [Hlo Hhi].
  unfold bookable. simpl. split_and!; try done.
  - intros j r Hj. destruct (decide (j = k)) as [->|Hne].
    + rewrite lookup_insert_eq in Hj. simplify_eq.
      unfold conflicting. simpl. tauto.
    + rewrite lookup_insert_ne in Hj by done. by apply Hfree.
  - rewrite lookup_insert_ne; [done|]. intros ->. congruence.
Qed.

(** X5.  Cancelling frees the slot: after a cancellation answered 200, a
    request that conflicts with no stored booking other than the
    cancelled one is answered 201. *)
Theorem cancelBooking_frees_slot envc reqc env req db f s e :
  statusCode (cancelBooking envc reqc db).1 = 200 →
  facilities db !! rq_facility_id (body req) = Some f →
  is_active f = true →
  outside_hours f (body req) = false →
  time_of_string (rq_start_time (body req)) = Some s →
  time_of_string (rq_end_time (body req)) = Some e →
  (∀ j r, facility_bookings db !! j = Some r → j ≠ params_id reqc →
          ¬ conflicting (rq_facility_id (body req))
              (rq_booking_date (body req)) s e (j, r)) →
  facility_bookings db !! new_uuid env = None →
  statusCode (createBooking env req (cancelBooking envc reqc db).2).1 = 201.
Proof.
  intros H200 Hf Hact Hout Hs He Hfree Hnew. revert H200.
  rewrite cancelBooking_eq.
  destruct (facility_bookings db !! params_id reqc) as [b|] eqn:Hb; [|done].
  case_decide; [done|]. case_decide; [done|]. case_match; [done|].
  intros _. cbn [snd]. apply createBooking_201. exists f, s, e.
  apply (bookable_after_release _ _ _ _ _ _ _ b); try done.
  simpl. rewrite !elem_of_cons, elem_of_nil. by intros [?|[?|[]]].
Qed.

Lemma cancelBooking_frees_slot_witness :
  statusCode
    (createBooking (Sample.at_ 4 "b3")
       (Sample.book Sample.bob "court" "court" "11:00" "13:00")
       Sample.two_bookings).1 = 409
  ∧ statusCode
      (createBooking (Sample.at_ 4 "b3")
         (Sample.book Sample.bob "court" "court" "11:00" "13:00")
         (cancelBooking (Sample.at_ 3 "") (Sample.on Sample.alice "b1")
            Sample.two_bookings).2).1 = 201.
Proof.
  split; [vm_compute; reflexivity|].
  apply (cancelBooking_frees_slot (Sample.at_ 3 "")
           (Sample.on Sample.alice "b1") (Sample.at_ 4 "b3")
           (Sample.book Sample.bob "court" "court" "11:00" "13:00")
           Sample.two_bookings Sample.court 39600 46800);
    try (vm_compute; reflexivity).
  intros j r.
  apply (map_Forall_lookup_1
           (λ j r, j ≠ "b1" → ¬ conflicting "court" 20000 39600 46800 (j, r))).
  refine (bool_decide_unpack _ _). vm_compute. exact I.
Defined.

(** X6.  Rejecting frees the slot: after a rejection answered 200, a
    request that conflicts with no stored booking other than the rejected
    one is answered 201. *)
Theorem reject_frees_slot enva reqa env req db f s e :
  statusCode (put_approve enva reqa db).1 = 200 →
  rq_status (body reqa) = rejected →
  facilities db !! rq_facility_id (body req) = Some f →
  is_active f = true →
  outside_hours f (body req) = false →
  time_of_string (rq_start_time (body req)) = Some s →
  time_of_string (rq_end_time (body req)) = Some e →
  (∀ j r, facility_bookings db !! j = Some r → j ≠ params_id reqa →
          ¬ conflicting (rq_facility_id (body req))
              (rq_booking_date (body req)) s e (j, r)) →
  facility_bookings db !! new_uuid env = None →
  statusCode (createBooking env req (put_approve enva reqa db).2).1 = 201.
Proof.
  intros H200 Hrej Hf Hact Hout Hs He Hfree Hnew. revert H200.
  unfold put_approve, requireAdmin, validateRequest.
  case_decide; [done|]. destruct (approveBookingSchema _); [|done].
  rewrite approveBooking_eq. case_decide; [done|].
  destruct (facility_bookings db !! params_id reqa) as [b|] eqn:Hb; [|done].
  case_decide; [|done].
  intros _. cbn [snd]. apply createBooking_201. exists f, s, e.
  apply (bookable_after_release _ _ _ _ _ _ _ b); try done.
  simpl. rewrite Hrej, !elem_of_cons, elem_of_nil. by intros [?|[?|[]]].
Qed.

Lemma reject_frees_slot_witness :
  statusCode
    (createBooking (Sample.at_ 4 "b3")
       (Sample.book Sample.bob "hall" "hall" "09:30" "10:30")
       Sample.two_bookings).1 = 409
  ∧ statusCode
      (createBooking (Sample.at_ 4 "b3")
         (Sample.book Sample.bob "hall" "hall" "09:30" "10:30")
         (put_approve (Sample.at_ 3 "")
            (Sample.decide_ Sample.root "b2" rejected)
            Sample.two_bookings).2).1 = 201.
Proof.
  split; [vm_compute; reflexivity|].
  apply (reject_frees_slot (Sample.at_ 3 "")
           (Sample.decide_ Sample.root "b2" rejected) (Sample.at_ 4 "b3")
           (Sample.book Sample.bob "hall" "hall" "09:30" "10:30")
           Sample.two_bookings Sample.hall 34200 37800);
    try (vm_compute; reflexivity).
  intros j r.
  apply (map_Forall_lookup_1
           (λ j r, j ≠ "b2" → ¬ conflicting "hall" 20000 34200 37800 (j, r))).
  refine (bool_decide_unpack _ _). vm_compute. exact I.
Defined.

(** ** Approval *)

(** X7.  When the approval route answers 200, the actor is an
    administrator, the decision is approved or rejected, the booking was
    pending, and afterwards it carries the decision, the administrator as
    approver, the server's time as approval time and the admin notes if
    any were sent (else the ones it had); its facility, owner, date,
    times, purpose, notes and creation time are unchanged, and so is
    every other booking. *)
Theorem put_approve_effect env req db :
  statusCode (put_approve env req db).1 = 200 →
  ∃ b b',
    role (user req) = admin
    ∧ rq_status (body req) ∈ [approved; rejected]
    ∧ facility_bookings db !! params_id req = Some b
    ∧ status b = pending
    ∧ facility_bookings (put_approve env req db).2 !! params_id req
      = Some b'
    ∧ res_data (payload (put_approve env req db).1)
      = Some (params_id req, b')
    ∧ status b' = rq_status (body req)
    ∧ approved_by b' = Some (u_id (user req))
    ∧ approved_at b' = Some (js_now env)
    ∧ admin_notes b'
      = match rq_admin_notes (body req) with
        | Some n => Some n
        | None => admin_notes b
        end
    ∧ facility_id b' = facility_id b
    ∧ user_id b' = user_id b
    ∧ booking_date b' = booking_date b
    ∧ start_time b' = start_time b
    ∧ end_time b' = end_time b
    ∧ purpose b' = purpose b
    ∧ notes b' = notes b
    ∧ created_at b' = created_at b
    ∧ (∀ k, k ≠ params_id req →
         facility_bookings (put_approve env req db).2 !! k
         = facility_bookings db !! k).
Proof.
  unfold put_approve, requireAdmin, validateRequest.
  case_decide as Hrole; [done|].
  destruct (approveBookingSchema _) eqn:Hschema; [|done].
  rewrite approveBooking_eq. case_decide; [done|].
  destruct (facility_bookings db !! params_id req) as [b|] eqn:Hb; [|done].
  case_decide as Hp; [|done]. intros _.
  exists b, (update_updated_at_column env
               (updateData env (user req) (body req) b)).
  simpl. rewrite lookup_insert_eq. split_and!; try done.
  - unfold approveBookingSchema in Hschema.
    apply andb_prop in Hschema as [Hst _].
    by apply bool_decide_eq_true in Hst.
  - intros k Hk. by rewrite lookup_insert_ne.
Qed.

Lemma put_approve_effect_witness :
  ∃ b',
    facility_bookings Sample.first_approval.2 !! "b2" = Some b'
    ∧ status b' = approved
    ∧ approved_by b' = Some "root"
    ∧ approved_at b' = Some 3000
    ∧ user_id b' = "alice".
Proof.
  destruct (put_approve_effect (Sample.at_ 3 "")
              (Sample.decide_ Sample.root "b2" approved)
              Sample.two_bookings)
    as (b & b' & _ & _ & Hb & _ & Hb' & _ & Hst & Hby & Hat & _ & _
        & Hu & _); [vm_compute; reflexivity|].
  exists b'. split; [exact Hb'|]. split; [exact Hst|].
  split; [exact Hby|]. split; [exact Hat|].
  rewrite Hu. vm_compute in Hb. injection Hb as <-. reflexivity.
Defined.

(** ** Cancelling again *)

(** X8.  After a cancellation answered 200, the same request sent again
    is answered 400 'Booking is already cancelled' and changes
    nothing. *)
Theorem cancelBooking_twice env env' req db :
  statusCode (cancelBooking env req db).1 = 200 →
  cancelBooking env' req (cancelBooking env req db).2
  = (json_error 400 "Booking is already cancelled",
     (cancelBooking env req db).2).
Proof.
  rewrite (cancelBooking_eq env req db).
  destruct (facility_bookings db !! params_id req) as [b|] eqn:Hb; [|done].
  case_decide as Hperm; [done|]. case_decide; [done|]. case_match; [done|].
  intros _. cbn [snd]. rewrite cancelBooking_eq. simpl.
  rewrite lookup_insert_eq. simpl.
  by rewrite decide_False by done.
Qed.

Lemma cancelBooking_twice_witness :
  statusCode
    (cancelBooking (Sample.at_ 4 "") (Sample.on Sample.alice "b1")
       (cancelBooking (Sample.at_ 3 "") (Sample.on Sample.alice "b1")
          Sample.two_bookings).2).1 = 400.
Proof.
  rewrite (cancelBooking_twice (Sample.at_ 3 "") (Sample.at_ 4 "")
             (Sample.on Sample.alice "b1") Sample.two_bookings);
    [reflexivity|vm_compute; reflexivity].
Defined.

(** ** Listings *)

Lemma range_cases lo hi (rows : list (uuid * FacilityBooking)) :
  range lo hi rows = failed
  ∨ (0 <= lo ∧ lo <= hi
     ∧ range lo hi rows
       = fulfilled (take (Z.to_nat (hi - lo + 1)) (drop (Z.to_nat lo) rows),
                    Z.of_nat (length rows))).
Proof.
  unfold range. destruct ((0 <=? lo) && (lo <=? hi)) eqn:Hr; [right|by left].
  by apply andb_prop in Hr as [?%Z.leb_le ?%Z.leb_le].
Qed.

Lemma getFacilityBookings_page req db p :
  res_data (payload (getFacilityBookings req db)) = Some p →
  ∃ st,
    status_filter (query req) = Some st
    ∧ page_of (merge_sort booking_order
                 (visible_rows (user req) (params_id req) st
                    (q_date (query req)) (facility_bookings db))) p.
Proof.
  unfold getFacilityBookings. fold (status_filter (query req)).
  destruct (status_filter (query req)) as [st|]; [|done].
  set (pg := or_default (q_page (query req)) 1).
  set (lim := or_default (q_limit (query req)) 10).
  set (rows := merge_sort _ _).
  destruct (range_cases ((pg - 1) * lim) ((pg - 1) * lim + lim - 1) rows)
    as [->|(Hlo & Hhi & ->)]; [done|].
  simpl. intros [= <-]. exists st. split; [done|]. unfold page_of. simpl.
  split_and!; try done; [lia|]. do 2 f_equal. lia.
Qed.

Lemma getUserBookings_page req db p :
  res_data (payload (getUserBookings req db)) = Some p →
  ∃ st,
    status_filter (query req) = Some st
    ∧ page_of (merge_sort booking_order_desc
                 (own_rows (user req) st (facility_bookings db))) p.
Proof.
  unfold getUserBookings. fold (status_filter (query req)).
  destruct (status_filter (query req)) as [st|]; [|done].
  set (pg := or_default (q_page (query req)) 1).
  set (lim := or_default (q_limit (query req)) 10).
  set (rows := merge_sort _ _).
  destruct (range_cases ((pg - 1) * lim) ((pg - 1) * lim + lim - 1) rows)
    as [->|(Hlo & Hhi & ->)]; [done|].
  simpl. intros [= <-]. exists st. split; [done|]. unfold page_of. simpl.
  split_and!; try done; [lia|]. do 2 f_equal. lia.
Qed.

Lemma page_of_subseteq rows p x : page_of rows p → x ∈ items p → x ∈ rows.
Proof.
  intros (_ & _ & -> & _) Hx. by apply subseteq_take, subseteq_drop in Hx.
Qed.

Lemma page_of_first rows p :
  page_of rows p → page (pagination p) = 1 →
  total (pagination p) <= limit (pagination p) → items p = rows.
Proof.
  intros (_ & _ & -> & Htotal & _) -> Hfit. simpl. rewrite drop_0.
  apply take_ge. lia.
Qed.

Lemma own_rows_elem u st (tbl : gmap uuid FacilityBooking) k b :
  (k, b) ∈ own_rows u st tbl
  ↔ tbl !! k = Some b
    ∧ user_id b = u_id u
    ∧ (∀ s, st = Some s → status b = s).
Proof.
  unfold own_rows, from.
  destruct st as [s|];
    rewrite ?list_elem_of_filter, elem_of_map_to_list,
      ?forall_Some, ?forall_None; simpl; tauto.
Qed.

(** X9.  "My bookings" returns only bookings owned by the actor, also to
    an administrator, and only bookings with the status asked for; with
    no status filter, a first page that is large enough holds every
    booking the actor owns. *)
Theorem getUserBookings_own req db p :
  res_data (payload (get_my_bookings req db)) = Some p →
  (∀ k b, (k, b) ∈ items p →
     facility_bookings db !! k = Some b
     ∧ user_id b = u_id (user req)
     ∧ (∀ s, status_filter (query req) = Some (Some s) → status b = s))
  ∧ (q_status (query req) = None →
     page (pagination p) = 1 →
     total (pagination p) <= limit (pagination p) →
     ∀ k b, facility_bookings db !! k = Some b →
            user_id b = u_id (user req) → (k, b) ∈ items p).
Proof.
  unfold get_my_bookings. intros (st & Hst & Hpage)%getUserBookings_page.
  split.
  - intros k b Hin. apply (page_of_subseteq _ _ _ Hpage) in Hin.
    rewrite merge_sort_Permutation in Hin.
    apply own_rows_elem in Hin as (Hk & Hown & Hs). split_and!; try done.
    intros s Hs'. apply Hs. congruence.
  - intros Hq Hfirst Hfit k b Hk Hown.
    rewrite (page_of_first _ _ Hpage Hfirst Hfit), merge_sort_Permutation.
    apply own_rows_elem. split_and!; try done.
    unfold status_filter in Hst. rewrite Hq in Hst. by intros s ->.
Qed.

Lemma getUserBookings_own_witness :
  length (items Sample.alice_page) = 2%nat
  ∧ ∀ k b, (k, b) ∈ items Sample.alice_page →
      facility_bookings Sample.two_bookings !! k = Some b
      ∧ user_id b = "alice".
Proof.
  split; [vm_compute; reflexivity|].
  destruct (getUserBookings_own (Sample.on Sample.alice "")
              Sample.two_bookings Sample.alice_page)
    as [Hsound _]; [vm_compute; reflexivity|].
  intros k b Hin. destruct (Hsound k b Hin) as (Hk & Hown & _).
  split; [exact Hk|exact Hown].
Defined.

Lemma ceil_div_bounds a b :
  1 <= b → (ceil_div a b - 1) * b < a <= ceil_div a b * b.
Proof.
  intros Hb. unfold ceil_div.
  pose proof (Z.mul_div_le (- a) b) as Hle.
  pose proof (Z.mul_succ_div_gt (- a) b) as Hgt. lia.
Qed.

(** X10.  A page returned by either listing has a page number and a page
    size of at least 1, holds at most [limit] items and at most [total],
    its number of pages is the least number of pages of that size that
    hold [total] rows, and a page beyond the last one is empty. *)
Theorem listing_page_bounds req db p :
  res_data (payload (get_bookings req db)) = Some p
  ∨ res_data (payload (get_my_bookings req db)) = Some p →
  1 <= page (pagination p)
  ∧ 1 <= limit (pagination p)
  ∧ Z.of_nat (length (items p)) <= limit (pagination p)
  ∧ Z.of_nat (length (items p)) <= total (pagination p)
  ∧ (totalPages (pagination p) - 1) * limit (pagination p)
    < total (pagination p)
    <= totalPages (pagination p) * limit (pagination p)
  ∧ (totalPages (pagination p) < page (pagination p) → items p = []).
Proof.
  intros Hp.
  assert (∃ rows, page_of rows p) as [rows Hpage].
  { destruct Hp as [(st & _ & ?)%getFacilityBookings_page
                   |(st & _ & ?)%getUserBookings_page]; eauto. }
  destruct Hpage as (Hlim & Hoff & Hitems & Htotal & Hpages).
  pose proof (ceil_div_bounds (total (pagination p)) (limit (pagination p))
                Hlim) as Hceil.
  rewrite <- Hpages in Hceil.
  assert (length (items p)
          = (Z.to_nat (limit (pagination p))
             `min` (length rows
                    - Z.to_nat ((page (pagination p) - 1)
                                * limit (pagination p))))%nat) as Hlen
    by by rewrite Hitems, length_take, length_drop.
  assert (1 <= page (pagination p)) as Hpg by nia.
  split_and!; try lia.
  intros Hbeyond. rewrite Hitems.
  rewrite drop_ge; [by destruct (Z.to_nat _)|]. nia.
Qed.

Lemma listing_page_bounds_witness :
  1 <= page (pagination Sample.court_page)
  ∧ Z.of_nat (length (items Sample.court_page))
    <= total (pagination Sample.court_page)
  ∧ total (pagination Sample.court_page)
    <= totalPages (pagination Sample.court_page)
       * limit (pagination Sample.court_page).
Proof.
  destruct (listing_page_bounds (Sample.on Sample.bob "court")
              Sample.two_bookings Sample.court_page)
    as (Hpage & _ & _ & Hlen & [_ Hpages] & _);
    [left; vm_compute; reflexivity|].
  split; [exact Hpage|]. split; [exact Hlen|exact Hpages].
Defined.

#[local] Instance booking_order_total : Total booking_order.
Proof. intros x y. unfold booking_order. lia. Qed.

#[local] Instance booking_order_trans : Transitive booking_order.
Proof. intros x y z. unfold booking_order. lia. Qed.

#[local] Instance booking_order_desc_total : Total booking_order_desc.
Proof. intros x y. unfold booking_order_desc. lia. Qed.

#[local] Instance booking_order_desc_trans : Transitive booking_order_desc.
Proof. intros x y z. unfold booking_order_desc. lia. Qed.

Lemma StronglySorted_drop {A} (R : relation A) n l :
  StronglySorted R l → StronglySorted R (drop n l).
Proof.
  revert l. induction n as [|n IH]; intros [|x l] Hl; simpl; try done.
  apply IH. by apply StronglySorted_inv in Hl as [? _].
Qed.

Lemma StronglySorted_take {A} (R : relation A) n l :
  StronglySorted R l → StronglySorted R (take n l).
Proof.
  revert n. induction l as [|x l IH]; intros [|n] Hl; simpl;
    try by constructor.
  apply StronglySorted_inv in Hl as [Hl Hx].
  constructor; [by apply IH|by apply Forall_take].
Qed.

(** X11.  The items of a facility listing are in ascending order of
    booking date, then start time: each item is ordered before all the
    items after it.  Those of "my bookings" are in descending order. *)
Theorem listing_sorted req db p :
  (res_data (payload (get_bookings req db)) = Some p →
   StronglySorted booking_order (items p))
  ∧ (res_data (payload (get_my_bookings req db)) = Some p →
     StronglySorted booking_order_desc (items p)).
Proof.
  split.
  - intros (st & _ & _ & _ & -> & _)%getFacilityBookings_page.
    apply StronglySorted_take, StronglySorted_drop.
    apply StronglySorted_merge_sort; apply _.
  - intros (st & _ & _ & _ & -> & _)%getUserBookings_page.
    apply StronglySorted_take, StronglySorted_drop.
    apply StronglySorted_merge_sort; apply _.
Qed.

Lemma listing_sorted_witness :
  StronglySorted booking_order_desc (items Sample.alice_page)
  ∧ (start_time ∘ snd) <$> items Sample.alice_page = [36000; 32400].
Proof.
  split; [|vm_compute; reflexivity].
  apply (listing_sorted (Sample.on Sample.alice "") Sample.two_bookings
           Sample.alice_page).
  vm_compute. reflexivity.
Defined.

Lemma first_page_complete req db p k b :
  res_data (payload (getFacilityBookings req db)) = Some p →
  q_status (query req) = None → q_date (query req) = None →
  page (pagination p) = 1 →
  total (pagination p) <= limit (pagination p) →
  facility_bookings db !! k = Some b →
  facility_id b = params_id req →
  role (user req) = admin ∨ status b = approved
  ∨ user_id b = u_id (user req) →
  (k, b) ∈ items p.
Proof.
  intros (st & Hst & Hpage)%getFacilityBookings_page Hq Hd Hfirst Hfit
    Hk Hfac Hvis.
  rewrite (page_of_first _ _ Hpage Hfirst Hfit), merge_sort_Permutation.
  apply visible_rows_elem. rewrite Hd.
  unfold status_filter in Hst. rewrite Hq in Hst. simplify_eq.
  split_and!; try done. tauto.
Qed.

(** X12.  With no status or date filter, a first page that is large
    enough holds every booking of the facility that the actor may see:
    all of them for an administrator, the approved ones and the actor's
    own otherwise. *)
Theorem getFacilityBookings_complete req db p k b :
  res_data (payload (get_bookings req db)) = Some p →
  q_status (query req) = None → q_date (query req) = None →
  page (pagination p) = 1 →
  total (pagination p) <= limit (pagination p) →
  facility_bookings db !! k = Some b →
  facility_id b = params_id req →
  role (user req) = admin ∨ status b = approved
  ∨ user_id b = u_id (user req) →
  (k, b) ∈ items p.
Proof. apply first_page_complete. Qed.

Lemma getFacilityBookings_complete_witness :
  ∃ b, ("b1", b) ∈ items Sample.court_page ∧ user_id b = "alice".
Proof.
  eexists. split.
  - apply (getFacilityBookings_complete (Sample.on Sample.bob "court")
             Sample.two_bookings Sample.court_page "b1");
      [vm_compute; reflexivity|reflexivity|reflexivity
      |vm_compute; reflexivity|vm_compute; discriminate
      |vm_compute; reflexivity|reflexivity
      |right; left; reflexivity].
  - reflexivity.
Defined.

(** ** A booking just created, as the listings show it *)

(** X13.  After a request answered 201, the new booking is on the first
    page of its facility's listing as its owner sees it (no filters, page
    large enough), under the generated key. *)
Theorem created_booking_listed env req lreq db p :
  statusCode (post_bookings env req db).1 = 201 →
  user lreq = user req →
  params_id lreq = rq_facility_id (body req) →
  q_status (query lreq) = None → q_date (query lreq) = None →
  res_data (payload (get_bookings lreq (post_bookings env req db).2))
  = Some p →
  page (pagination p) = 1 →
  total (pagination p) <= limit (pagination p) →
  ∃ b, (new_uuid env, b) ∈ items p
       ∧ user_id b = u_id (user req)
       ∧ facility_id b = rq_facility_id (body req).
Proof.
  intros H201 Hu Hfid Hq Hd Hp Hfirst Hfit.
  destruct (post_bookings_cases env req db)
    as [(f & s & e & Hb & Heq)|[_ ?]]; [|done].
  revert Hp. rewrite Heq, (createBooking_bookable env req db f s e) by done.
  cbn [snd]. intros Hp. exists (created env req f s e).
  split; [|done].
  eapply (first_page_complete lreq); [exact Hp|done..| | |].
  - simpl. apply lookup_insert_eq.
  - done.
  - right. right. by rewrite Hu.
Qed.

Lemma created_booking_listed_witness :
  ∃ b, ("b3", b)
       ∈ match res_data
                 (payload
                    (get_bookings (Sample.on Sample.bob "hall")
                       (post_bookings (Sample.at_ 3 "b3")
                          (Sample.book Sample.bob "hall" "hall" "11:00"
                             "12:00") Sample.two_bookings).2)) with
         | Some p => items p
         | None => []
         end
       ∧ user_id b = "bob".
Proof.
  destruct (res_data
              (payload
                 (get_bookings (Sample.on Sample.bob "hall")
                    (post_bookings (Sample.at_ 3 "b3")
                       (Sample.book Sample.bob "hall" "hall" "11:00" "12:00")
                       Sample.two_bookings).2))) as [p|] eqn:Hp;
    [|vm_compute in Hp; discriminate Hp].
  destruct (created_booking_listed (Sample.at_ 3 "b3")
              (Sample.book Sample.bob "hall" "hall" "11:00" "12:00")
              (Sample.on Sample.bob "hall") Sample.two_bookings p)
    as (b & Hin & Hown & _);
    [vm_compute; reflexivity|reflexivity|reflexivity|reflexivity
    |reflexivity|exact Hp| |
    |exists b; split; [exact Hin|exact Hown]].
  - vm_compute in Hp. injection Hp as <-. reflexivity.
  - vm_compute in Hp. injection Hp as <-. vm_compute. discriminate.
Defined.

(** X14.  After a request answered 201 on a facility that requires
    approval, the new (pending) booking is on no page of that facility's
    listing shown to another user who is not an administrator. *)
Theorem pending_booking_hidden env req lreq db f p :
  statusCode (post_bookings env req db).1 = 201 →
  facilities db !! rq_facility_id (body req) = Some f →
  requires_approval f = true →
  role (user lreq) ≠ admin →
  u_id (user lreq) ≠ u_id (user req) →
  res_data (payload (get_bookings lreq (post_bookings env req db).2))
  = Some p →
  ∀ b, (new_uuid env, b) ∉ items p.
Proof.
  intros H201 Hf Hreq Hrole Hother Hp b Hin.
  destruct (getFacilityBookings_items _ _ _ _ _ Hp Hin) as [st Hvis].
  apply visible_rows_elem in Hvis as (Hk & _ & Hvis & _).
  specialize (Hvis Hrole). revert Hk.
  destruct (post_bookings_cases env req db)
    as [(f' & s & e & Hb & Heq)|[_ ?]]; [|done].
  rewrite Heq, (createBooking_bookable env req db f' s e) by done.
  simpl. rewrite lookup_insert_eq. intros [= <-].
  destruct Hb as (Hf' & _). simplify_eq.
  unfold created in Hvis. simpl in Hvis. rewrite Hreq in Hvis.
  destruct Hvis as [?|?]; [done|]. by apply Hother.
Qed.

Lemma pending_booking_hidden_witness :
  is_Some (facility_bookings Sample.two_bookings !! "b2")
  ∧ ∀ b, ("b2", b) ∉ items Sample.hall_page.
Proof.
  split; [vm_compute; eauto|].
  apply (pending_booking_hidden (Sample.at_ 2 "b2")
           (Sample.book Sample.alice "hall" "hall" "09:00" "10:00")
           (Sample.on Sample.bob "hall")
           (step Sample.empty_ledger
              (CreateBooking (Sample.at_ 1 "b1")
                 (Sample.book Sample.alice "court" "court" "10:00" "12:00")))
           Sample.hall);
    [vm_compute; reflexivity|vm_compute; reflexivity|reflexivity
    |discriminate|discriminate|vm_compute; reflexivity].
Defined.

(** ** Times of day as text: the handler's comparisons *)

(** X16.  On two zero-padded HH:MM texts that match the schema's pattern,
    JavaScript's string comparison agrees with the order of the times
    the store reads from them. *)
Theorem js_lt_time_order a b ta tb :
  String.length a = 5%nat → String.length b = 5%nat →
  time_of_string a = Some ta → time_of_string b = Some tb →
  (js_lt a b = true ↔ ta < tb) ∧ (js_gt a b = true ↔ tb < ta).
Proof.
  intros Hla Hlb Ha Hb.
  pose proof (time_of_string_pattern _ _ Ha) as Hpa.
  pose proof (time_of_string_pattern _ _ Hb) as Hpb.
  destruct (time_pattern_chars a Hpa)
    as [(? & ? & ? & -> & _)|(h1 & h2 & m1 & m2 & -> & Hh & Hm1 & Hm2)];
    [done|].
  destruct (time_pattern_chars b Hpb)
    as [(? & ? & ? & -> & _)|(g1 & g2 & n1 & n2 & -> & Hg & Hn1 & Hn2)];
    [done|].
  rewrite time_of_string_long in Ha, Hb by done. simplify_eq.
  apply char_between_digit in Hm1, Hm2, Hn1, Hn2.
  change (digit "0") with 0 in *. change (digit "9") with 9 in *.
  change (digit "5") with 5 in *.
  assert (0 <= digit h2 <= 9) as Hh2.
  { destruct Hh as [[_ H]|[_ H]]; apply char_between_digit in H;
      change (digit "0") with 0 in *; change (digit "9") with 9 in *;
      change (digit "3") with 3 in *; lia. }
  assert (0 <= digit g2 <= 9) as Hg2.
  { destruct Hg as [[_ H]|[_ H]]; apply char_between_digit in H;
      change (digit "0") with 0 in *; change (digit "9") with 9 in *;
      change (digit "3") with 3 in *; lia. }
  split; [by apply long_times_order|].
  unfold js_gt. fold (js_lt (String g1 (String g2 (String ":" (String n1
                                (String n2 EmptyString)))))
                        (String h1 (String h2 (String ":" (String m1
                                (String m2 EmptyString)))))).
  by apply long_times_order.
Qed.

Lemma js_lt_time_order_witness :
  (js_lt "09:30" "10:00" = true ↔ 34200 < 36000)
  ∧ js_lt "9:30" "10:00" = false.
Proof.
  split; [|reflexivity].
  apply (js_lt_time_order "09:30" "10:00" 34200 36000); reflexivity.
Defined.

(** X17.  When the facility's opening time is held as the request's
    start text followed by more characters (as in '08:00:00' against
    '08:00'), the request is refused with the operating-hours error; the
    same at the closing end is not refused by the closing comparison, and
    a start text equal to the opening text is not refused by the opening
    comparison. *)
Theorem createBooking_boundary_text env req db f t :
  facilities db !! rq_facility_id (body req) = Some f →
  is_active f = true →
  t ≠ EmptyString →
  (operating_hours_start f = rq_start_time (body req) +:+ t →
   createBooking env req db
   = (json_error 400
        ("Facility is only available between "
         +:+ operating_hours_start f +:+ " and "
         +:+ operating_hours_end f), db))
  ∧ (operating_hours_end f = rq_end_time (body req) +:+ t →
     js_gt (rq_end_time (body req)) (operating_hours_end f) = false)
  ∧ (operating_hours_start f = rq_start_time (body req) →
     js_lt (rq_start_time (body req)) (operating_hours_start f) = false).
Proof.
  intros Hf Hact Ht. split_and!.
  - intros Hopen. unfold createBooking.
    rewrite facility_by_id, Hf, Hact. cbn [single fulfilled error data].
    assert (js_lt (rq_start_time (body req)) (operating_hours_start f)
            = true) as ->; [|done].
    unfold js_lt, String.ltb. rewrite Hopen, string_compare_prefix.
    by destruct t.
  - intros ->. unfold js_gt, String.ltb. rewrite string_compare_prefix_r.
    by destruct t.
  - intros ->. unfold js_lt, String.ltb.
    pose proof (string_compare_prefix (rq_start_time (body req)) "") as Hc.
    rewrite string_app_empty in Hc. by rewrite Hc.
Qed.

Lemma createBooking_boundary_text_witness :
  statusCode
    (createBooking (Sample.at_ 1 "b1")
       (Sample.book Sample.alice "court" "court" "08:00" "09:00")
       Sample.empty_ledger).1 = 400
  ∧ statusCode
      (createBooking (Sample.at_ 1 "b1")
         (Sample.book Sample.alice "court" "court" "19:00" "20:00")
         Sample.empty_ledger).1 = 201.
Proof.
  split; [|vm_compute; reflexivity].
  destruct (createBooking_boundary_text (Sample.at_ 1 "b1")
              (Sample.book Sample.alice "court" "court" "08:00" "09:00")
              Sample.empty_ledger Sample.court ":00")
    as [Hopen _]; [reflexivity|reflexivity|discriminate|].
  rewrite Hopen; reflexivity.
Defined.

(** ** What no request changes *)

Lemma same_request_refl b : same_request b b.
Proof. by unfold same_request. Qed.

Lemma same_request_trans b1 b2 b3 :
  same_request b1 b2 → same_request b2 b3 → same_request b1 b3.
Proof.
  unfold same_request.
  intros (? & ? & ? & ? & ? & ? & ? & ?) (? & ? & ? & ? & ? & ? & ? & ?).
  split_and!; congruence.
Qed.

Lemma step_same_request db op k b :
  facility_bookings db !! k = Some b →
  ∃ b', facility_bookings (step db op) !! k = Some b' ∧ same_request b b'.
Proof.
  intros Hk. destruct op as [env req|env req|env req]; simpl.
  - destruct (post_bookings_cases env req db) as [(f & s & e & Hb & ->)|[-> _]];
      [|exists b; split; [done|apply same_request_refl]].
    rewrite (createBooking_bookable _ _ _ f s e) by done. simpl.
    destruct Hb as (_ & _ & _ & _ & _ & _ & _ & Hnew).
    exists b. split; [|apply same_request_refl].
    rewrite lookup_insert_ne; [done|congruence].
  - unfold put_approve, requireAdmin, validateRequest.
    case_decide; [exists b; split; [done|apply same_request_refl]|].
    destruct (approveBookingSchema _);
      [|exists b; split; [done|apply same_request_refl]].
    rewrite approveBooking_eq. case_decide; [done|].
    destruct (facility_bookings db !! params_id req) as [b0|] eqn:Hb0;
      [|exists b; split; [done|apply same_request_refl]].
    case_decide; [|exists b; split; [done|apply same_request_refl]]. simpl.
    destruct (decide (params_id req = k)) as [<-|Hne].
    + rewrite lookup_insert_eq. simplify_eq. eexists. split; [done|].
      by unfold same_request.
    + rewrite lookup_insert_ne by done.
      exists b. split; [done|apply same_request_refl].
  - unfold put_cancel. rewrite cancelBooking_eq.
    destruct (facility_bookings db !! params_id req) as [b0|] eqn:Hb0;
      [|exists b; split; [done|apply same_request_refl]].
    case_decide; [exists b; split; [done|apply same_request_refl]|].
    case_decide; [exists b; split; [done|apply same_request_refl]|].
    case_match; [exists b; split; [done|apply same_request_refl]|]. simpl.
    destruct (decide (params_id req = k)) as [<-|Hne].
    + rewrite lookup_insert_eq. simplify_eq. eexists. split; [done|].
      by unfold same_request.
    + rewrite lookup_insert_ne by done.
      exists b. split; [done|apply same_request_refl].
Qed.

(** X18.  No sequence of requests deletes a booking, changes its
    facility, owner, date, times, purpose, notes or creation time, or
    changes the facilities table. *)
Theorem run_same_request ops db k b :
  facility_bookings db !! k = Some b →
  facilities (run ops db) = facilities db
  ∧ ∃ b', facility_bookings (run ops db) !! k = Some b' ∧ same_request b b'.
Proof.
  revert db b. induction ops as [|op ops IH]; intros db b Hk.
  { split; [done|]. exists b. split; [done|apply same_request_refl]. }
  rewrite run_cons.
  destruct (step_same_request db op k b Hk) as (b1 & Hk1 & Hsame1).
  destruct (IH _ _ Hk1) as (Hfac & b' & Hk' & Hsame').
  split; [by rewrite Hfac, step_facilities|].
  exists b'. split; [done|]. by apply (same_request_trans b b1 b').
Qed.

Lemma run_same_request_witness :
  ∃ b', facility_bookings
          (run [ApproveOrReject (Sample.at_ 3 "")
                  (Sample.decide_ Sample.root "b2" approved);
                CancelBooking (Sample.at_ 4 "") (Sample.on Sample.alice "b2")]
               Sample.two_bookings) !! "b2" = Some b'
        ∧ user_id b' = "alice" ∧ start_time b' = 32400
        ∧ status b' = cancelled.
Proof.
  destruct (run_same_request
              [ApproveOrReject (Sample.at_ 3 "")
                 (Sample.decide_ Sample.root "b2" approved);
               CancelBooking (Sample.at_ 4 "") (Sample.on Sample.alice "b2")]
              Sample.two_bookings "b2"
              {| facility_id := "hall"; user_id := "alice";
                 booking_date := 20000; start_time := 32400;
                 end_time := 36000; status := pending; purpose := None;
                 notes := None; admin_notes := None;
                 approved_by := None; approved_at := None;
                 created_at := 2001; updated_at := 2001 |})
    as (_ & b' & Hk & Hsame); [vm_compute; reflexivity|].
  exists b'. destruct Hsame as (_ & Hu & _ & Hs & _).
  split; [exact Hk|]. split; [exact Hu|]. split; [exact Hs|].
  vm_compute in Hk. injection Hk as <-. reflexivity.
Defined.

Lemma step_approval_recorded db op :
  approval_recorded (facility_bookings db) →
  approval_recorded (facility_bookings (step db op)).
Proof.
  intros Hinv. destruct op as [env req|env req|env req]; simpl.
  - destruct (post_bookings_cases env req db) as [(f & s & e & Hb & ->)|[-> _]];
      [|done].
    rewrite (createBooking_bookable _ _ _ f s e) by done. simpl.
    intros k b Hk. destruct (decide (k = new_uuid env)) as [->|Hne].
    + rewrite lookup_insert_eq in Hk. simplify_eq.
      unfold created. simpl. destruct (requires_approval f); simpl.
      * split; [done|]. by intros [?|?].
      * split; [done|]. intros _. split; eauto.
    + rewrite lookup_insert_ne in Hk by done. by apply (Hinv k).
  - unfold put_approve, requireAdmin, validateRequest.
    case_decide; [done|].
    destruct (approveBookingSchema _) eqn:Hschema; [|done].
    rewrite approveBooking_eq. case_decide; [done|].
    destruct (facility_bookings db !! params_id req) as [b0|] eqn:Hb0;
      [|done].
    case_decide; [|done]. simpl.
    intros k b Hk. destruct (decide (k = params_id req)) as [->|Hne].
    + rewrite lookup_insert_eq in Hk. simplify_eq. simpl.
      unfold approveBookingSchema in Hschema.
      apply andb_prop in Hschema as [Hst _].
      apply bool_decide_eq_true in Hst.
      rewrite !elem_of_cons, elem_of_nil in Hst.
      split; [|intros _; split; eauto].
      intros Hp. rewrite Hp in Hst. by destruct Hst as [?|[?|[]]].
    + rewrite lookup_insert_ne in Hk by done. by apply (Hinv k).
  - unfold put_cancel. rewrite cancelBooking_eq.
    destruct (facility_bookings db !! params_id req) as [b0|] eqn:Hb0;
      [|done].
    case_decide; [done|]. case_decide; [done|]. case_match; [done|]. simpl.
    intros k b Hk. destruct (decide (k = params_id req)) as [->|Hne].
    + rewrite lookup_insert_eq in Hk. simplify_eq. simpl.
      split; [done|]. by intros [?|?].
    + rewrite lookup_insert_ne in Hk by done. by apply (Hinv k).
Qed.

(** X19.  Approval bookkeeping is an invariant of the ledger: if every
    pending booking has no approver and no approval time, and every
    approved or rejected booking has both, the same holds after any
    sequence of requests. *)
Theorem run_approval_recorded ops db :
  approval_recorded (facility_bookings db) →
  approval_recorded (facility_bookings (run ops db)).
Proof.
  revert db. induction ops as [|op ops IH]; intros db Hinv; [done|].
  rewrite run_cons. by apply IH, step_approval_recorded.
Qed.

Lemma run_approval_recorded_witness :
  approval_recorded (facility_bookings Sample.hall_approved).
Proof.
  apply (run_approval_recorded
           [CreateBooking (Sample.at_ 1 "b1")
              (Sample.book Sample.alice "court" "court" "10:00" "12:00");
            CreateBooking (Sample.at_ 2 "b2")
              (Sample.book Sample.alice "hall" "hall" "09:00" "10:00");
            ApproveOrReject (Sample.at_ 3 "")
              (Sample.decide_ Sample.root "b2" approved)]
           Sample.empty_ledger).
  intros k b Hk. simpl in Hk. by rewrite lookup_empty in Hk.
Defined.

(** X20.  A booking created through the route holds, as start and end,
    the times the store read from the request's two texts, each a whole
    minute of the day from 00:00 to 23:59. *)
Theorem post_bookings_created_well_formed env req db :
  statusCode (post_bookings env req db).1 = 201 →
  ∃ b,
    facility_bookings (post_bookings env req db).2 !! new_uuid env = Some b
    ∧ time_pattern (rq_start_time (body req)) = true
    ∧ time_pattern (rq_end_time (body req)) = true
    ∧ time_of_string (rq_start_time (body req)) = Some (start_time b)
    ∧ time_of_string (rq_end_time (body req)) = Some (end_time b)
    ∧ 0 <= start_time b <= 86340 ∧ start_time b mod 60 = 0
    ∧ 0 <= end_time b <= 86340 ∧ end_time b mod 60 = 0.
Proof.
  unfold post_bookings, validateRequest.
  destruct (createBookingSchema env (body req)) eqn:Hschema; [|done].
  intros (f & s & e & Hb)%createBooking_201.
  rewrite (createBooking_bookable env req db f s e) by done.
  exists (created env req f s e). simpl. rewrite lookup_insert_eq.
  destruct Hb as (_ & _ & _ & _ & Hs & He & _).
  destruct (time_of_string_bounds _ _ Hs) as [Hsr Hsm].
  destruct (time_of_string_bounds _ _ He) as [Her Hem].
  unfold createBookingSchema in Hschema.
  apply andb_prop in Hschema
    as [[[[_ Hps]%andb_prop Hpe]%andb_prop _]%andb_prop _].
  unfold created. simpl. split_and!; try done; lia.
Qed.

Lemma post_bookings_created_well_formed_witness :
  ∃ b,
    facility_bookings
      (post_bookings (Sample.at_ 1 "b1")
         (Sample.book Sample.alice "court" "court" "10:00" "12:00")
         Sample.empty_ledger).2 !! "b1" = Some b
    ∧ time_of_string "10:00" = Some (start_time b)
    ∧ start_time b mod 60 = 0
    ∧ 0 <= end_time b <= 86340.
Proof.
  destruct (post_bookings_created_well_formed (Sample.at_ 1 "b1")
              (Sample.book Sample.alice "court" "court" "10:00" "12:00")
              Sample.empty_ledger)
    as (b & Hk & _ & _ & Hs & _ & _ & Hm & He & _);
    [vm_compute; reflexivity|].
  exists b. split; [exact Hk|]. split; [exact Hs|]. split; [exact Hm|exact He].
Defined.

(** ** Complaints *)

Lemma getComplaint_eq req (tbl : gmap uuid Complaint.Complaint) :
  Complaint.getComplaint req tbl
  = match tbl !! params_id req with
    | Some c =>
        if decide (role (user req) ≠ admin
                   ∧ Complaint.user_id c ≠ u_id (user req))
        then json_error 404 "Complaint not found"
        else
          {| statusCode := 200;
             payload :=
               {| success := true; res_data := Some (params_id req, c);
                  message := Some "Complaint retrieved successfully";
                  res_error := None |} |}
    | None => json_error 404 "Complaint not found"
    end.
Proof.
  unfold Complaint.getComplaint.
  rewrite (filter_by_key _ (params_id req)) by done.
  destruct (tbl !! params_id req) as [c|]; [|by case_decide].
  rewrite !(decide_True (P := (params_id req, c).1 = params_id req)) by done.
  destruct (decide (role (user req) ≠ admin)) as [Hr|Hr].
  - rewrite filter_cons. simpl.
    destruct (decide (Complaint.user_id c = u_id (user req))) as [Ho|Ho].
    + rewrite decide_False; [done|]. tauto.
    + by rewrite decide_True.
  - rewrite decide_False; [done|]. tauto.
Qed.

(** X21.  A complaint is shown to its owner and to administrators; to
    anyone else it is reported exactly like a complaint that does not
    exist: 404 'Complaint not found'. *)
Theorem getComplaint_visibility req (tbl : gmap uuid Complaint.Complaint) :
  (∀ c, tbl !! params_id req = Some c →
        role (user req) = admin ∨ Complaint.user_id c = u_id (user req) →
        statusCode (Complaint.getComplaint req tbl) = 200
        ∧ res_data (payload (Complaint.getComplaint req tbl))
          = Some (params_id req, c))
  ∧ (∀ c, tbl !! params_id req = Some c →
          role (user req) ≠ admin →
          Complaint.user_id c ≠ u_id (user req) →
          Complaint.getComplaint req tbl
          = json_error 404 "Complaint not found")
  ∧ (tbl !! params_id req = None →
     Complaint.getComplaint req tbl = json_error 404 "Complaint not found").
Proof.
  rewrite getComplaint_eq. split_and!.
  - intros c -> Hvis. rewrite decide_False; [done|]. tauto.
  - intros c -> Hr Ho. by rewrite decide_True.
  - by intros ->.
Qed.

Lemma getComplaint_visibility_witness :
  statusCode
    (Complaint.getComplaint (Sample.on Sample.alice "c1")
       (Complaint.complaints Sample.one_complaint)) = 200
  ∧ Complaint.getComplaint (Sample.on Sample.bob "c1")
      (Complaint.complaints Sample.one_complaint)
    = Complaint.getComplaint (Sample.on Sample.bob "c2")
        (Complaint.complaints Sample.one_complaint).
Proof.
  destruct (getComplaint_visibility (Sample.on Sample.alice "c1")
              (Complaint.complaints Sample.one_complaint))
    as (Hshown & _ & _).
  destruct (getComplaint_visibility (Sample.on Sample.bob "c1")
              (Complaint.complaints Sample.one_complaint))
    as (_ & Hhidden & _).
  destruct (getComplaint_visibility (Sample.on Sample.bob "c2")
              (Complaint.complaints Sample.one_complaint))
    as (_ & _ & Habsent).
  split.
  - eapply Hshown; [vm_compute; reflexivity|right; reflexivity].
  - rewrite Habsent by (vm_compute; reflexivity).
    eapply Hhidden; [vm_compute; reflexivity|discriminate|discriminate].
Defined.

Lemma listed_rows_elem u st pr (tbl : gmap uuid Complaint.Complaint) k c :
  (k, c) ∈ Complaint.listed_rows u st pr tbl
  ↔ tbl !! k = Some c
    ∧ (role u ≠ admin → Complaint.user_id c = u_id u)
    ∧ (∀ s, st = Some s → Complaint.status c = s)
    ∧ (∀ p, pr = Some p → Complaint.priority c = p).
Proof.
  unfold Complaint.listed_rows, from.
  destruct pr as [p|], st as [s|], (decide (role u ≠ admin)) as [Hr|Hr];
    rewrite ?list_elem_of_filter, elem_of_map_to_list,
      ?forall_Some, ?forall_None; simpl; tauto.
Qed.

(** X22.  The complaint listing shows a resident only complaints of
    their own; every item it shows anyone is stored and has the status
    and the priority asked for. *)
Theorem getComplaints_own u q (tbl : gmap uuid Complaint.Complaint) p :
  res_data (payload (Complaint.getComplaints u q tbl)) = Some p →
  ∀ k c, (k, c) ∈ items p →
    tbl !! k = Some c
    ∧ (role u ≠ admin → Complaint.user_id c = u_id u)
    ∧ (∀ s, Complaint.query_filter Complaint.complaint_status_of_string
              (Complaint.cq_status q) = Some (Some s) →
            Complaint.status c = s)
    ∧ (∀ pr, Complaint.query_filter Complaint.complaint_priority_of_string
               (Complaint.cq_priority q) = Some (Some pr) →
             Complaint.priority c = pr).
Proof.
  unfold Complaint.getComplaints.
  destruct (Complaint.query_filter _ (Complaint.cq_status q)) as [st|];
    [|done].
  destruct (Complaint.query_filter _ (Complaint.cq_priority q)) as [pr|];
    [|done].
  destruct (range _ _ _) as [[r|] []] eqn:Hrange; simpl; try done.
  - intros [= <-] k c Hin. simpl in Hin.
    assert ((k, c) ∈ merge_sort Complaint.complaint_order
              (Complaint.listed_rows u st pr tbl)) as Hs.
    { eapply (range_items _ _ _ r); [by rewrite Hrange|done]. }
    rewrite merge_sort_Permutation in Hs.
    apply listed_rows_elem in Hs as (Hk & Hown & Hst & Hpr).
    split_and!; try done.
    + intros s [= ->]. by apply Hst.
    + intros p' [= ->]. by apply Hpr.
  - intros [= <-] k c Hin. by apply elem_of_nil in Hin.
Qed.

Lemma getComplaints_own_witness :
  length (items Sample.alice_complaints) = 1%nat
  ∧ ∀ k c, (k, c) ∈ items Sample.alice_complaints →
      Complaint.user_id c = "alice".
Proof.
  split; [vm_compute; reflexivity|].
  intros k c Hin.
  destruct (getComplaints_own Sample.alice Sample.all_complaints
              (Complaint.complaints Sample.one_complaint)
              Sample.alice_complaints) with (k := k) (c := c)
    as (_ & Hown & _); [vm_compute; reflexivity|exact Hin|].
  apply Hown. discriminate.
Defined.

Lemma post_complaint_cases env req file st :
  (statusCode (Complaint.post_complaint env req file st).1 = 201
   ↔ Complaint.createComplaintSchema (body req) = true
     ∧ Complaint.rq_category_id (body req)
       ∈ Complaint.complaint_categories st
     ∧ Complaint.complaints st !! new_uuid env = None)
  ∧ (statusCode (Complaint.post_complaint env req file st).1 = 201 →
     ∃ c,
       (Complaint.post_complaint env req file st).2
       = Complaint.with_complaints st
           (<[new_uuid env := c]> (Complaint.complaints st))
       ∧ Complaint.user_id c = u_id (user req)
       ∧ Complaint.status c = Complaint.open
       ∧ Complaint.priority c
         = default Complaint.medium (Complaint.rq_priority (body req))
       ∧ Complaint.admin_notes c = None
       ∧ Complaint.resolved_at c = None)
  ∧ (statusCode (Complaint.post_complaint env req file st).1 ≠ 201 →
     (Complaint.post_complaint env req file st).2 = st).
Proof.
  unfold Complaint.post_complaint, Complaint.createComplaint.
  destruct (Complaint.createComplaintSchema (body req));
    [|split_and!; [split; [done|by intros [? _]]|done|done]].
  destruct (decide (Complaint.rq_category_id (body req)
                    ∈ Complaint.complaint_categories st)) as [Hcat|Hcat];
    [|split_and!; [split; [done|by intros (_ & ? & _)]|done|done]].
  destruct (Complaint.complaints st !! new_uuid env) eqn:Hnew;
    [split_and!; [split; [done|by intros (_ & _ & ?)]|done|done]|].
  simpl. split_and!; [done| |done].
  intros _. eexists. split; [done|]. done.
Qed.

(** Lengths are counted in UTF-16 code units: a title of three
    characters held in nine bytes is too short, and the route answers
    400 to it; one character outside the basic plane counts twice. *)
Lemma createComplaintSchema_code_units :
  js_length "日本語" = 3%nat
  ∧ String.length "日本語" = 9%nat
  ∧ js_length "😀" = 2%nat
  ∧ statusCode
      (Complaint.post_complaint (Sample.at_ 1 "c1")
         {| user := Sample.alice; params_id := ""; query := Sample.no_query;
            body := {| Complaint.rq_category_id := "plumbing";
                       Complaint.rq_title := "日本語";
                       Complaint.rq_description
                       := "The kitchen tap drips all night";
                       Complaint.rq_priority := None |} |}
         None Sample.no_complaints).1 = 400
  ∧ statusCode
      (Complaint.post_complaint (Sample.at_ 1 "c1") Sample.leak None
         Sample.no_complaints).1 = 201.
Proof. vm_compute. by split_and!. Qed.

(** X23.  The complaint route answers 201 exactly when the body passes
    the schema, the category exists and the generated key is free; it
    then stores, under that key, a complaint owned by the actor, open,
    with the priority sent or else medium, no admin notes and no
    resolution time, and changes nothing else; in every other case the
    store is left as it was. *)
Theorem post_complaint_effect env req file st :
  (statusCode (Complaint.post_complaint env req file st).1 = 201
   ↔ Complaint.createComplaintSchema (body req) = true
     ∧ Complaint.rq_category_id (body req)
       ∈ Complaint.complaint_categories st
     ∧ Complaint.complaints st !! new_uuid env = None)
  ∧ (statusCode (Complaint.post_complaint env req file st).1 = 201 →
     ∃ c,
       (Complaint.post_complaint env req file st).2
       = Complaint.with_complaints st
           (<[new_uuid env := c]> (Complaint.complaints st))
       ∧ Complaint.user_id c = u_id (user req)
       ∧ Complaint.status c = Complaint.open
       ∧ Complaint.priority c
         = default Complaint.medium (Complaint.rq_priority (body req))
       ∧ Complaint.admin_notes c = None
       ∧ Complaint.resolved_at c = None)
  ∧ (statusCode (Complaint.post_complaint env req file st).1 ≠ 201 →
     (Complaint.post_complaint env req file st).2 = st).
Proof. apply post_complaint_cases. Qed.

Lemma imap_by_key {A} (f : A → A) (id : uuid) (tbl : gmap uuid A) :
  map_imap (λ k c, Some (if decide (k = id) then f c else c)) tbl
  = match tbl !! id with
    | Some c => <[id := f c]> tbl
    | None => tbl
    end.
Proof.
  apply map_eq. intros i. rewrite map_lookup_imap.
  destruct (decide (i = id)) as [->|Hne].
  - destruct (tbl !! id) as [c|] eqn:Hc; simpl.
    + by rewrite lookup_insert_eq.
    + by rewrite Hc.
  - destruct (tbl !! i) as [c|] eqn:Hi; simpl.
    + rewrite ?decide_False by done.
      destruct (tbl !! id); [by rewrite lookup_insert_ne|done].
    + destruct (tbl !! id); [by rewrite lookup_insert_ne|done].
Qed.

Lemma put_status_eq env req (tbl : gmap uuid Complaint.Complaint) :
  Complaint.put_status env req tbl
  = if decide (role (user req) ≠ admin)
    then (json_error 403 "Admin access required", tbl)
    else if Complaint.updateComplaintStatusSchema (body req)
    then
      match tbl !! params_id req with
      | Some c =>
          ({| statusCode := 200;
              payload :=
                {| success := true;
                   res_data :=
                     Some (params_id req,
                           Complaint.updateData env (body req) c);
                   message := Some "Complaint status updated successfully";
                   res_error := None |} |},
           <[params_id req := Complaint.updateData env (body req) c]> tbl)
      | None => (json_error 500 "Failed to update complaint status", tbl)
      end
    else (json_error 400 "Validation error", tbl).
Proof.
  unfold Complaint.put_status, Complaint.updateComplaintStatus.
  case_decide; [done|].
  destruct (Complaint.updateComplaintStatusSchema (body req)); [|done].
  rewrite (filter_by_key _ (params_id req)) by done.
  rewrite imap_by_key.
  destruct (tbl !! params_id req) as [c|]; [|done].
  by rewrite decide_True by done.
Qed.

(** X24.  When the status route answers 200, the actor is an
    administrator and the complaint under the given id now has the status
    sent; its resolution time is the server's time of the request if that
    status is 'resolved' and is otherwise left as it was (a resolution
    time is never cleared); its admin notes are replaced only by a
    non-empty text; owner, category, title, description, priority, image
    and creation time are unchanged, and so is every other complaint. *)
Theorem put_status_effect env req (tbl : gmap uuid Complaint.Complaint) :
  statusCode (Complaint.put_status env req tbl).1 = 200 →
  ∃ c c',
    role (user req) = admin
    ∧ tbl !! params_id req = Some c
    ∧ (Complaint.put_status env req tbl).2 = <[params_id req := c']> tbl
    ∧ Complaint.status c' = Complaint.rq_status (body req)
    ∧ (Complaint.rq_status (body req) = Complaint.resolved →
       Complaint.resolved_at c' = Some (js_now env))
    ∧ (Complaint.rq_status (body req) ≠ Complaint.resolved →
       Complaint.resolved_at c' = Complaint.resolved_at c)
    ∧ (Complaint.rq_admin_notes (body req) = None →
       Complaint.admin_notes c' = Complaint.admin_notes c)
    ∧ Complaint.user_id c' = Complaint.user_id c
    ∧ Complaint.category_id c' = Complaint.category_id c
    ∧ Complaint.title c' = Complaint.title c
    ∧ Complaint.description c' = Complaint.description c
    ∧ Complaint.priority c' = Complaint.priority c
    ∧ Complaint.image_url c' = Complaint.image_url c
    ∧ Complaint.created_at c' = Complaint.created_at c.
Proof.
  rewrite put_status_eq. case_decide as Hrole; [done|].
  destruct (Complaint.updateComplaintStatusSchema (body req)); [|done].
  destruct (tbl !! params_id req) as [c|] eqn:Hc; [|done].
  intros _. exists c, (Complaint.updateData env (body req) c). simpl.
  split_and!; try done.
  - intros Hres. by rewrite decide_True.
  - intros Hne. by rewrite decide_False.
  - by intros ->.
Qed.

Lemma put_status_effect_witness :
  ∃ c',
    (Complaint.put_status (Sample.at_ 2 "")
       (Sample.set_status Sample.root "c1" Complaint.resolved)
       (Complaint.complaints Sample.one_complaint)).2 !! "c1" = Some c'
    ∧ Complaint.status c' = Complaint.resolved
    ∧ Complaint.resolved_at c' = Some 2000.
Proof.
  destruct (put_status_effect (Sample.at_ 2 "")
              (Sample.set_status Sample.root "c1" Complaint.resolved)
              (Complaint.complaints Sample.one_complaint))
    as (c & c' & _ & _ & Heq & Hst & Hres & _); [vm_compute; reflexivity|].
  exists c'. rewrite Heq, lookup_insert_eq.
  split; [reflexivity|]. split; [exact Hst|]. apply Hres. reflexivity.
Defined.

Lemma complaint_step_cases st op :
  Complaint.complaint_categories (complaint_step st op)
  = Complaint.complaint_categories st
  ∧ (Complaint.complaints (complaint_step st op) = Complaint.complaints st
     ∨ (∃ k c,
          Complaint.complaints st !! k = None
          ∧ Complaint.complaints (complaint_step st op)
            = <[k := c]> (Complaint.complaints st)
          ∧ Complaint.status c = Complaint.open)
     ∨ (∃ env b k c,
          Complaint.complaints st !! k = Some c
          ∧ Complaint.complaints (complaint_step st op)
            = <[k := Complaint.updateData env b c]> (Complaint.complaints st))).
Proof.
  destruct op as [env req file|env req]; simpl.
  - destruct (post_complaint_cases env req file st) as (Hiff & Hok & Hfail).
    destruct (decide (statusCode (Complaint.post_complaint env req file st).1
                      = 201)) as [H201|H201].
    + destruct (Hok H201) as (c & -> & _ & Hopen & _). simpl.
      split; [done|]. right. left. exists (new_uuid env), c.
      apply Hiff in H201 as (_ & _ & Hnew). done.
    + rewrite (Hfail H201). split; [done|by left].
  - split; [done|]. rewrite put_status_eq.
    case_decide; [by left|].
    destruct (Complaint.updateComplaintStatusSchema (body req)); [|by left].
    destruct (Complaint.complaints st !! params_id req) as [c|] eqn:Hc;
      [|by left].
    right. right. exists env, (body req), (params_id req), c. done.
Qed.

Lemma complaint_step_resolution st op :
  resolution_recorded (Complaint.complaints st) →
  resolution_recorded (Complaint.complaints (complaint_step st op)).
Proof.
  intros Hinv.
  destruct (complaint_step_cases st op)
    as (_ & [->|[(k & c & Hk & -> & Hopen)|(env & b & k & c & Hk & ->)]]);
    [done| |].
  - intros i ci Hi Hres. destruct (decide (i = k)) as [->|Hne].
    + rewrite lookup_insert_eq in Hi. simplify_eq. congruence.
    + rewrite lookup_insert_ne in Hi by done. by apply (Hinv i).
  - intros i ci Hi Hres. destruct (decide (i = k)) as [->|Hne].
    + rewrite lookup_insert_eq in Hi. simplify_eq. simpl in *.
      by rewrite decide_True.
    + rewrite lookup_insert_ne in Hi by done. by apply (Hinv i).
Qed.

Lemma complaint_step_kept st op k c :
  Complaint.complaints st !! k = Some c →
  ∃ c', Complaint.complaints (complaint_step st op) !! k = Some c'
        ∧ Complaint.user_id c' = Complaint.user_id c
        ∧ (is_Some (Complaint.resolved_at c) →
           is_Some (Complaint.resolved_at c')).
Proof.
  intros Hk.
  destruct (complaint_step_cases st op)
    as (_ & [->|[(i & ci & Hi & -> & _)|(env & b & i & ci & Hi & ->)]]).
  - exists c. done.
  - exists c. rewrite lookup_insert_ne; [done|congruence].
  - destruct (decide (i = k)) as [->|Hne].
    + rewrite lookup_insert_eq. simplify_eq. eexists. split; [done|].
      simpl. split; [done|]. intros Hres. by case_decide.
    + exists c. by rewrite lookup_insert_ne.
Qed.

Lemma complaint_run_cons op ops st :
  complaint_run (op :: ops) st = complaint_run ops (complaint_step st op).
Proof. done. Qed.

(** X25.  Over any sequence of complaint creations and status updates:
    if every resolved complaint carries a resolution time, that still
    holds afterwards; and a stored complaint is never deleted, keeps its
    owner, and keeps a resolution time once it has one, even when it is
    moved out of 'resolved' again. *)
Theorem complaint_run_resolution ops st :
  resolution_recorded (Complaint.complaints st) →
  resolution_recorded (Complaint.complaints (complaint_run ops st))
  ∧ ∀ k c, Complaint.complaints st !! k = Some c →
      ∃ c', Complaint.complaints (complaint_run ops st) !! k = Some c'
            ∧ Complaint.user_id c' = Complaint.user_id c
            ∧ (is_Some (Complaint.resolved_at c) →
               is_Some (Complaint.resolved_at c')).
Proof.
  revert st. induction ops as [|op ops IH]; intros st Hinv.
  { split; [done|]. intros k c Hk. exists c. done. }
  rewrite complaint_run_cons.
  destruct (IH (complaint_step st op)) as [Hinv' Hkept];
    [by apply complaint_step_resolution|].
  split; [done|]. intros k c Hk.
  destruct (complaint_step_kept st op k c Hk) as (c1 & Hk1 & Hu1 & Hr1).
  destruct (Hkept k c1 Hk1) as (c' & Hk' & Hu' & Hr').
  exists c'. split_and!; [done|congruence|auto].
Qed.

Lemma complaint_run_resolution_witness :
  ∃ c',
    Complaint.complaints
      (complaint_run
         [CreateComplaint (Sample.at_ 1 "c1") Sample.leak None;
          UpdateComplaintStatus (Sample.at_ 2 "")
            (Sample.set_status Sample.root "c1" Complaint.resolved);
          UpdateComplaintStatus (Sample.at_ 3 "")
            (Sample.set_status Sample.root "c1" Complaint.open)]
         Sample.no_complaints) !! "c1" = Some c'
    ∧ Complaint.status c' = Complaint.open
    ∧ Complaint.resolved_at c' = Some 2000
  ∧ resolution_recorded
      (Complaint.complaints
         (complaint_run
            [CreateComplaint (Sample.at_ 1 "c1") Sample.leak None;
             UpdateComplaintStatus (Sample.at_ 2 "")
               (Sample.set_status Sample.root "c1" Complaint.resolved);
             UpdateComplaintStatus (Sample.at_ 3 "")
               (Sample.set_status Sample.root "c1" Complaint.open)]
            Sample.no_complaints)).
Proof.
  eexists. split; [vm_compute; reflexivity|].
  split; [reflexivity|]. split; [reflexivity|].
  apply (complaint_run_resolution
           [CreateComplaint (Sample.at_ 1 "c1") Sample.leak None;
            UpdateComplaintStatus (Sample.at_ 2 "")
              (Sample.set_status Sample.root "c1" Complaint.resolved);
            UpdateComplaintStatus (Sample.at_ 3 "")
              (Sample.set_status Sample.root "c1" Complaint.open)]
           Sample.no_complaints).
  intros k c Hk. simpl in Hk. by rewrite lookup_empty in Hk.
Defined.
